(** * Globedine: the recipe cache, cache-backed retrieval, the region filter
    and the favourite toggle, embedded from the TypeScript sources.

    - The recipe cache module (class [RecipeCache], [initializeCache],
      [getRecipes]), which [useRecipes.ts] imports as
      [../services/recipeCache].
    - [src/components/RecipePanel.tsx]: the [filteredRecipes] predicate of
      [Home]; the filters of the recipe panel, and the effect and the
      [toggleFavorite] of [Home].
    - [src/hooks/useRecipes.ts]: [toggleFavorite]; [initCache],
      [fetchRecipesForCuisine] and [getRecipesByRegion].
    - The transformation of a recipe of the remote service
      ([transformSpoonacularRecipe], [getDietaryTags],
      [getRegionFromCountry] of the [api] module).

    Conventions of the embedding.
    - A JavaScript string is the sequence of its UTF-8 bytes ([string]).
    - The type of the JavaScript numbers a recipe holds (its coordinates) is
      a parameter [number]: no function below computes with them.  The
      integers the code computes with (time stamps, the numeric suffix of an
      identifier) are in [Z], and [NaN] is [None].
    - An object used as a dictionary is the list of its own properties in
      the order [Object.keys] enumerates them.  The tables of the filter,
      the effect and the transformation are read through [member], which
      tells the members inherited from [Object.prototype] from the own
      ones; the cache object is read among its own properties.
    - [localStorage] is a finite map from keys to texts, without a quota.
    - What the browser and the [mockData] module provide (the clock,
      [JSON], the mock collections) is the interface [Platform].
    - Values are typed as the TypeScript declarations type them.
    - [console] output is not modelled. *)

From Stdlib Require Import ZArith String Ascii List Bool Lia.
From Stdlib Require Import Decimal Hexadecimal DecimalString DecimalZ.
From stdpp Require Import gmap strings list fin_maps.

#[local] Open Scope Z_scope.
#[local] Open Scope string_scope.

(** ** JavaScript strings *)

(** A string or an optional string in a condition: [""], [null] and
    [undefined] are falsy. *)
Definition truthy (s : string) : bool :=
  match s with EmptyString => false | String _ _ => true end.

Definition truthy_opt (o : option string) : bool :=
  match o with Some s => truthy s | None => false end.

(** The string [o] holds, where [o] is known to be truthy. *)
Definition the_string (o : option string) : string :=
  match o with Some s => s | None => "" end.

(** [o || d] on an optional string. *)
Definition or_else (o : option string) (d : string) : string :=
  match o with
  | Some s => if truthy s then s else d
  | None => d
  end.

Definition byte_in (lo hi : nat) (c : ascii) : bool :=
  (Nat.leb lo (nat_of_ascii c) && Nat.leb (nat_of_ascii c) hi)%bool.

Definition lower_ascii (c : ascii) : ascii :=
  if byte_in 65 90 c then ascii_of_nat (nat_of_ascii c + 32) else c.

(** [String.prototype.toLowerCase] on Basic Latin and on the Latin-1
    Supplement (U+00C0..U+00DE without U+00D7, the bytes C3 80..C3 9E
    without C3 97); other text is left as it is. *)
Fixpoint toLowerCase (s : string) : string :=
  match s with
  | EmptyString => EmptyString
  | String c s' =>
      match s' with
      | String d s'' =>
          if (Nat.eqb (nat_of_ascii c) 195 && byte_in 128 158 d
              && negb (Nat.eqb (nat_of_ascii d) 151))%bool
          then String c (String (ascii_of_nat (nat_of_ascii d + 32)) (toLowerCase s''))
          else String (lower_ascii c) (toLowerCase s')
      | EmptyString => String (lower_ascii c) EmptyString
      end
  end.

(** [s.startsWith(p)]. *)
Definition startsWith (s p : string) : bool := String.prefix p s.

(** [s.includes(t)]. *)
Fixpoint includes (s t : string) : bool :=
  (String.prefix t s
   || match s with
      | EmptyString => false
      | String _ s' => includes s' t
      end)%bool.

Fixpoint drop_chars (n : nat) (s : string) : string :=
  match n, s with
  | O, _ => s
  | S n', String _ s' => drop_chars n' s'
  | S _, EmptyString => EmptyString
  end.

(** [s.replace(pat, rep)] for a string pattern and a replacement without
    [$]: the first occurrence of [pat] is replaced. *)
Fixpoint replace (s pat rep : string) : string :=
  if String.prefix pat s then rep +:+ drop_chars (String.length pat) s
  else match s with
       | EmptyString => EmptyString
       | String c s' => String c (replace s' pat rep)
       end.

(** *** [parseInt] *)

(** Length in bytes of the white space or line terminator [s] starts with
    (ECMAScript [StrWhiteSpaceChar]), [0] when it starts with none. *)
Definition white_space_prefix (s : string) : nat :=
  match s with
  | String c s1 =>
      let n := nat_of_ascii c in
      if (byte_in 9 13 c || Nat.eqb n 32)%bool then 1%nat
      else match s1 with
           | String d s2 =>
               let m := nat_of_ascii d in
               if (Nat.eqb n 194 && Nat.eqb m 160)%bool then 2%nat     (* U+00A0 *)
               else match s2 with
                    | String e _ =>
                        let k := nat_of_ascii e in
                        if (Nat.eqb n 225 && Nat.eqb m 154 && Nat.eqb k 128      (* U+1680 *)
                            || Nat.eqb n 226 && Nat.eqb m 128
                               && (byte_in 128 138 e                               (* U+2000..U+200A *)
                                   || byte_in 168 169 e                            (* U+2028, U+2029 *)
                                   || Nat.eqb k 175)                               (* U+202F *)
                            || Nat.eqb n 226 && Nat.eqb m 129 && Nat.eqb k 159   (* U+205F *)
                            || Nat.eqb n 227 && Nat.eqb m 128 && Nat.eqb k 128   (* U+3000 *)
                            || Nat.eqb n 239 && Nat.eqb m 187 && Nat.eqb k 191)%bool (* U+FEFF *)
                        then 3%nat else 0%nat
                    | EmptyString => 0%nat
                    end
           | EmptyString => 0%nat
           end
  | EmptyString => 0%nat
  end.

Fixpoint trimStart_fuel (fuel : nat) (s : string) : string :=
  match fuel with
  | O => s
  | S fuel' =>
      match white_space_prefix s with
      | O => s
      | n => trimStart_fuel fuel' (drop_chars n s)
      end
  end.

Definition trimStart (s : string) : string := trimStart_fuel (String.length s) s.

(** The longest prefix of decimal digits, as a numeral. *)
Fixpoint decimal_digits (s : string) : Decimal.uint :=
  match s with
  | String c s' =>
      match c with
      | "0" => Decimal.D0 (decimal_digits s')
      | "1" => Decimal.D1 (decimal_digits s')
      | "2" => Decimal.D2 (decimal_digits s')
      | "3" => Decimal.D3 (decimal_digits s')
      | "4" => Decimal.D4 (decimal_digits s')
      | "5" => Decimal.D5 (decimal_digits s')
      | "6" => Decimal.D6 (decimal_digits s')
      | "7" => Decimal.D7 (decimal_digits s')
      | "8" => Decimal.D8 (decimal_digits s')
      | "9" => Decimal.D9 (decimal_digits s')
      | _ => Decimal.Nil
      end%char
  | EmptyString => Decimal.Nil
  end.

(** The longest prefix of hexadecimal digits, as a numeral. *)
Fixpoint hexadecimal_digits (s : string) : Hexadecimal.uint :=
  match s with
  | String c s' =>
      match c with
      | "0" => Hexadecimal.D0 (hexadecimal_digits s')
      | "1" => Hexadecimal.D1 (hexadecimal_digits s')
      | "2" => Hexadecimal.D2 (hexadecimal_digits s')
      | "3" => Hexadecimal.D3 (hexadecimal_digits s')
      | "4" => Hexadecimal.D4 (hexadecimal_digits s')
      | "5" => Hexadecimal.D5 (hexadecimal_digits s')
      | "6" => Hexadecimal.D6 (hexadecimal_digits s')
      | "7" => Hexadecimal.D7 (hexadecimal_digits s')
      | "8" => Hexadecimal.D8 (hexadecimal_digits s')
      | "9" => Hexadecimal.D9 (hexadecimal_digits s')
      | "a" | "A" => Hexadecimal.Da (hexadecimal_digits s')
      | "b" | "B" => Hexadecimal.Db (hexadecimal_digits s')
      | "c" | "C" => Hexadecimal.Dc (hexadecimal_digits s')
      | "d" | "D" => Hexadecimal.Dd (hexadecimal_digits s')
      | "e" | "E" => Hexadecimal.De (hexadecimal_digits s')
      | "f" | "F" => Hexadecimal.Df (hexadecimal_digits s')
      | _ => Hexadecimal.Nil
      end%char
  | EmptyString => Hexadecimal.Nil
  end.

(** The digits of [parseInt] after the sign: radix 16 after [0x] or [0X],
    radix 10 otherwise; [None] ([NaN]) when there is no digit. *)
Definition parse_magnitude (s : string) : option Z :=
  if (String.prefix "0x" s || String.prefix "0X" s)%bool then
    match hexadecimal_digits (drop_chars 2 s) with
    | Hexadecimal.Nil => None
    | d => Some (Z.of_hex_uint d)
    end
  else
    match decimal_digits s with
    | Decimal.Nil => None
    | d => Some (Z.of_uint d)
    end.

(** [parseInt(s)] with no radix argument. *)
Definition parseInt (s : string) : option Z :=
  match trimStart s with
  | String "-" s' => Z.opp <$> parse_magnitude s'
  | String "+" s' => parse_magnitude s'
  | s' => parse_magnitude s'
  end.

(** [n.toString()] for an integral number. *)
Definition Z_toString (n : Z) : string := NilEmpty.string_of_int (Z.to_int n).

(** Comparisons of a number that may be [NaN] with an integer: every
    comparison with [NaN] is false. *)
Definition num_ge (a : option Z) (b : Z) : bool :=
  match a with Some n => (b <=? n)%Z | None => false end.

Definition num_lt (a : option Z) (b : Z) : bool :=
  match a with Some n => (n <? b)%Z | None => false end.

(** A property lookup in an object literal used as a table. *)
Fixpoint table_get {V : Type} (k : string) (t : list (string * V)) : option V :=
  match t with
  | [] => None
  | (k', v) :: t' => if String.eqb k k' then Some v else table_get k t'
  end.


(** ** Exceptions *)

(** A thrown exception, by its name. *)
Definition Error : Type := string.

Inductive Result (A : Type) : Type :=
  | Ok (a : A)
  | Throw (e : Error).
Arguments Ok {A} a.
Arguments Throw {A} e.

(** [l.filter(f)] for a callback that may throw. *)
Fixpoint filter_throwing {A : Type} (f : A -> Result bool) (l : list A) : Result (list A) :=
  match l with
  | [] => Ok []
  | x :: l' =>
      match f x with
      | Ok b =>
          match filter_throwing f l' with
          | Ok kept => Ok (if b then x :: kept else kept)
          | Throw e => Throw e
          end
      | Throw e => Throw e
      end
  end.

(** ** Tables written as object literals *)

(** [l.includes(x)]. *)
Definition array_includes (l : list string) (x : string) : bool :=
  existsb (String.eqb x) l.

(** The names every object literal inherits from [Object.prototype]; their
    values are functions or objects, hence truthy and not of the table's
    value type. *)
Definition Object_prototype_names : list string :=
  [ "constructor"; "__defineGetter__"; "__defineSetter__"; "hasOwnProperty";
    "__lookupGetter__"; "__lookupSetter__"; "isPrototypeOf";
    "propertyIsEnumerable"; "toString"; "valueOf"; "__proto__";
    "toLocaleString" ].

(** The value of [table[k]] for a table written as an object literal. *)
Inductive Member (V : Type) : Type :=
  | Own (v : V)
  | Inherited
  | Absent.
Arguments Own {V} v.
Arguments Inherited {V}.
Arguments Absent {V}.

Definition member {V : Type} (k : string) (t : list (string * V)) : Member V :=
  match table_get k t with
  | Some v => Own v
  | None => if array_includes Object_prototype_names k then Inherited else Absent
  end.
(** ** Data model ([RecipePanel.tsx]) *)

Section DataModel.
Context {number : Type}.

(** [interface Recipe]; an optional field that is absent is [None]. *)
Record Recipe : Type := {
  id : string;
  title : string;
  country : string;
  region : string;
  prepTime : string;
  image : string;
  isFavorite : bool;
  description : string;
  coordinates : number * number;
  ingredients : option (list string);
  instructions : option (list string);
  dietaryTags : option (list string);
}.

(** [interface Region] of [RecipePanel.tsx]. *)
Record Region : Type := {
  region_id : string;
  name : string;
  region_description : string;
  region_coordinates : number * number;
}.

(** The [view] state of [Home]. *)
Inductive View : Type := explore | search | favorites.

(** ** [toggleFavorite] ([useRecipes.ts]) *)

(** [{ ...recipe, isFavorite: b }]. *)
Definition with_isFavorite (recipe : Recipe) (b : bool) : Recipe :=
  {| id := id recipe;
     title := title recipe;
     country := country recipe;
     region := region recipe;
     prepTime := prepTime recipe;
     image := image recipe;
     isFavorite := b;
     description := description recipe;
     coordinates := coordinates recipe;
     ingredients := ingredients recipe;
     instructions := instructions recipe;
     dietaryTags := dietaryTags recipe |}.

(** The state update [setRecipes(prevRecipes => prevRecipes.map(...))]. *)
Definition toggleFavorite (id0 : string) (prevRecipes : list Recipe) : list Recipe :=
  map (fun recipe =>
         if String.eqb (id recipe) id0
         then with_isFavorite recipe (negb (isFavorite recipe))
         else recipe)
      prevRecipes.

(** ** The derived recipe list of [Home] ([RecipePanel.tsx]) *)

(** The [countryToCuisine] table declared inside the filter. *)
Definition countryToCuisine : list (string * string) :=
  [ ("Italy", "Italian"); ("Italia", "Italian"); ("France", "French");
    ("España", "Spanish"); ("Spain", "Spanish"); ("Greece", "Greek");
    ("Germany", "German"); ("United Kingdom", "British");
    ("Great Britain", "British"); ("Russia", "Russian");
    ("Portugal", "Portuguese");
    ("China", "Chinese"); ("Japan", "Japanese"); ("Thailand", "Thai");
    ("India", "Indian"); ("Korea", "Korean");
    ("Korea, Republic of", "Korean"); ("Vietnam", "Vietnamese");
    ("USA", "American"); ("United States", "American");
    ("United States of America", "American"); ("Mexico", "Mexican");
    ("Brasil", "Brazilian"); ("Brazil", "Brazilian");
    ("Argentina", "Argentine");
    ("Lebanon", "Middle Eastern"); ("Turkey", "Middle Eastern");
    ("Iran", "Middle Eastern") ].

Definition continents : list string :=
  [ "North America"; "South America"; "Europe"; "Asia"; "Africa";
    "Australia"; "Oceania" ].

(** The chain of identifier ranges tried for a mock identifier. *)
Definition idRangeMatch (targetCuisine : string) (idNum : option Z) : bool :=
  if (String.eqb targetCuisine "Italian" && num_ge idNum 100 && num_lt idNum 200)%bool then true
  else if (String.eqb targetCuisine "Mexican" && num_ge idNum 200 && num_lt idNum 300)%bool then true
  else if (String.eqb targetCuisine "Chinese" && num_ge idNum 300 && num_lt idNum 400)%bool then true
  else if (String.eqb targetCuisine "Indian" && num_ge idNum 400 && num_lt idNum 500)%bool then true
  else if (String.eqb targetCuisine "Japanese" && num_ge idNum 500 && num_lt idNum 600)%bool then true
  else if (String.eqb targetCuisine "Thai" && num_ge idNum 600 && num_lt idNum 700)%bool then true
  else if (String.eqb targetCuisine "French" && num_ge idNum 700 && num_lt idNum 800)%bool then true
  else if (String.eqb targetCuisine "American" && num_ge idNum 800 && num_lt idNum 900)%bool then true
  else if (String.eqb targetCuisine "Spanish" && num_ge idNum 900 && num_lt idNum 1000)%bool then true
  else if (String.eqb targetCuisine "Greek" && num_ge idNum 1000 && num_lt idNum 1100)%bool then true
  else false.

(** The body of [if (activeRegion) { ... }] for [activeRegion.name = name].
    [countryToCuisine[name]] for the name of a member every object inherits
    is that member, a function or an object: it is truthy, and
    [targetCuisine.toLowerCase()] throws a [TypeError]. *)
Definition inActiveRegion (name0 : string) (r : Recipe) : Result bool :=
  if array_includes continents name0 then
    Ok (String.eqb (toLowerCase (region r)) (toLowerCase name0))
  else if String.eqb (toLowerCase (country r)) (toLowerCase name0) then Ok true
  else if (includes (toLowerCase (country r)) (toLowerCase name0)
           || includes (toLowerCase name0) (toLowerCase (country r)))%bool then Ok true
  else
    match member name0 countryToCuisine with
    | Own targetCuisine =>
        if truthy targetCuisine then
          if (includes (toLowerCase (title r)) (toLowerCase targetCuisine)
              || (truthy (description r)
                  && includes (toLowerCase (description r)) (toLowerCase targetCuisine)))%bool
          then Ok true
          else if startsWith (id r) "mock-" then
            let idNum := parseInt (replace (id r) "mock-" "") in
            Ok (idRangeMatch targetCuisine idNum)
          else Ok false
        else Ok false
    | Inherited => Throw "TypeError"
    | Absent => Ok false
    end.

(** The callback of [recipes.filter(...)]. *)
Definition filterCallback (view : View) (searchQuery : string)
    (activeRegion : option Region) (r : Recipe) : Result bool :=
  match view with
  | favorites => Ok (isFavorite r)
  | _ =>
      if truthy searchQuery then
        let query := toLowerCase searchQuery in
        let basicMatch :=
          (includes (toLowerCase (title r)) query
           || includes (toLowerCase (country r)) query
           || includes (toLowerCase (region r)) query
           || includes (toLowerCase (description r)) query)%bool in
        let ingredientMatch :=
          match ingredients r with
          | Some l => existsb (fun ingredient => includes (toLowerCase ingredient) query) l
          | None => false
          end in
        Ok (basicMatch || ingredientMatch)%bool
      else
        match activeRegion with
        | Some activeRegion => inActiveRegion (name activeRegion) r
        | None => Ok true
        end
  end.

(** [recipes.filter(...)]: an exception of the callback ends the
    derivation of the list. *)
Definition filteredRecipes (view : View) (searchQuery : string)
    (activeRegion : option Region) (recipes : list Recipe) : Result (list Recipe) :=
  filter_throwing (filterCallback view searchQuery activeRegion) recipes.

End DataModel.

Arguments Recipe : clear implicits.
Arguments Region : clear implicits.

(** ** Objects used as dictionaries *)

(** [Object.keys] lists the own keys that are array indices (canonical
    numerals below [2^32 - 1]) in ascending order, then the other keys in
    the order of their creation. *)
Definition array_index (k : string) : option N :=
  match k with
  | EmptyString => None
  | String c rest =>
      if (String.eqb (NilEmpty.string_of_uint (decimal_digits k)) k
          && (negb (Ascii.eqb c "0") || String.eqb rest ""))%bool
      then
        let n := N.of_uint (decimal_digits k) in
        if (n <? 4294967295)%N then Some n else None
      else None
  end.

Section Objects.
Context {V : Type}.

(** [o[k]] on own properties. *)
Definition obj_get (k : string) (o : list (string * V)) : option V := table_get k o.

Definition obj_keys (o : list (string * V)) : list string := map fst o.

Definition obj_values (o : list (string * V)) : list V := map snd o.

(** Assignment to a property that exists: it keeps its place. *)
Fixpoint obj_replace (k : string) (v : V) (o : list (string * V)) : list (string * V) :=
  match o with
  | [] => []
  | (k', v') :: o' =>
      if String.eqb k k' then (k, v) :: o' else (k', v') :: obj_replace k v o'
  end.

(** A new array-index key goes before the first key that is a larger index
    or no index. *)
Fixpoint obj_insert_index (n : N) (k : string) (v : V) (o : list (string * V))
    : list (string * V) :=
  match o with
  | [] => [(k, v)]
  | (k', v') :: o' =>
      match array_index k' with
      | Some n' =>
          if (n <? n')%N then (k, v) :: o else (k', v') :: obj_insert_index n k v o'
      | None => (k, v) :: o
      end
  end.

(** [o[k] = v]. *)
Definition obj_set (k : string) (v : V) (o : list (string * V)) : list (string * V) :=
  match obj_get k o with
  | Some _ => obj_replace k v o
  | None =>
      match array_index k with
      | Some n => obj_insert_index n k v o
      | None => o ++ [(k, v)]
      end
  end.

End Objects.

(** ** The cache ([recipeCache.ts]) *)

Definition CACHE_PREFIX : string := "global-cuisine-".
Definition CACHE_CUISINES : string := CACHE_PREFIX +:+ "cuisines".
Definition CACHE_TIMESTAMP : string := CACHE_PREFIX +:+ "timestamp".
Definition CACHE_EXPIRY : Z := 24 * 60 * 60 * 1000.

(** Calls of the [mockData] module, in the order they were made. *)
Inductive Call : Type :=
  | CallGetMockRecipesForCuisine (cuisine : string)
  | CallGetAllMockRecipes.

Section Cache.
Context {number : Type}.

(** A property value of the object [getAllMockRecipes()] returns: an array
    of recipes, or a value for which [Array.isArray] is false. *)
Inductive MockValue : Type :=
  | MockArray (recipes : list (Recipe number))
  | MockNotArray.

(** What the code takes from its environment.
    - [Date_getTime k]: the value of the [k]-th evaluation of
      [new Date().getTime()].
    - [JSON_stringify_names], [JSON_stringify_recipes]: [JSON.stringify] on
      an array of strings and on an array of recipes.
    - [JSON_parse_names text]: the array [JSON.parse(text)] with its
      elements read as property keys; [None] when [JSON.parse] throws or the
      value has no [forEach].
    - [JSON_parse_recipes text]: the value of [JSON.parse(text)], which the
      cache stores unchecked under the declared type [Recipe[]]; [None] when
      [JSON.parse] throws.
    - [getMockRecipesForCuisine], [getAllMockRecipes]: the functions of the
      [mockData] module, which is not part of the sources at hand; their
      result may depend on the calls made before, and they may throw. *)
Class Platform : Type := {
  Date_getTime : nat -> Z;
  JSON_stringify_names : list string -> string;
  JSON_parse_names : string -> option (list string);
  JSON_stringify_recipes : list (Recipe number) -> string;
  JSON_parse_recipes : string -> option (list (Recipe number));
  getMockRecipesForCuisine : list Call -> string -> Result (list (Recipe number));
  getAllMockRecipes : list Call -> Result (list (string * MockValue));
}.

Context {platform : Platform}.

(** The state the module works on: the singleton [recipeCache], the
    browser's [localStorage], [mockDataState.usingMockData], the number of
    clock readings and the calls made to [mockData]. *)
Record State : Type := {
  inMemoryCache : list (string * list (Recipe number));
  localStorage : gmap string string;
  usingMockData : bool;
  clockReads : nat;
  calls : list Call;
}.

Definition set_inMemoryCache (c : list (string * list (Recipe number))) (s : State) : State :=
  {| inMemoryCache := c; localStorage := localStorage s;
     usingMockData := usingMockData s; clockReads := clockReads s; calls := calls s |}.

Definition set_localStorage (ls : gmap string string) (s : State) : State :=
  {| inMemoryCache := inMemoryCache s; localStorage := ls;
     usingMockData := usingMockData s; clockReads := clockReads s; calls := calls s |}.

Definition set_usingMockData (b : bool) (s : State) : State :=
  {| inMemoryCache := inMemoryCache s; localStorage := localStorage s;
     usingMockData := b; clockReads := clockReads s; calls := calls s |}.

Definition set_clockReads (n : nat) (s : State) : State :=
  {| inMemoryCache := inMemoryCache s; localStorage := localStorage s;
     usingMockData := usingMockData s; clockReads := n; calls := calls s |}.

Definition set_calls (l : list Call) (s : State) : State :=
  {| inMemoryCache := inMemoryCache s; localStorage := localStorage s;
     usingMockData := usingMockData s; clockReads := clockReads s; calls := l |}.

(** *** Computations that change the state and may throw *)

Definition M (A : Type) : Type := State -> Result A * State.

Definition ret {A : Type} (a : A) : M A := fun s => (Ok a, s).

Definition bind {A B : Type} (m : M A) (f : A -> M B) : M B :=
  fun s =>
    match m s with
    | (Ok a, s') => f a s'
    | (Throw e, s') => (Throw e, s')
    end.

Definition throw {A : Type} (e : Error) : M A := fun s => (Throw e, s).

(** [try { m } catch (e) { h e }]. *)
Definition try_catch {A : Type} (m : M A) (h : Error -> M A) : M A :=
  fun s =>
    match m s with
    | (Ok a, s') => (Ok a, s')
    | (Throw e, s') => h e s'
    end.

Definition gets {A : Type} (f : State -> A) : M A := fun s => (Ok (f s), s).

Definition modify (f : State -> State) : M unit := fun s => (Ok tt, f s).

Notation "'let*' x ':=' m 'in' k" := (bind m (fun x => k))
  (at level 10, x pattern, m at level 100, k at level 200).

(** [l.forEach(f)]: an exception thrown by [f] ends the iteration. *)
Fixpoint forEach {A : Type} (f : A -> M unit) (l : list A) : M unit :=
  match l with
  | [] => ret tt
  | x :: l' => let* _ := f x in forEach f l'
  end.

(** [new Date().getTime()]. *)
Definition Date_now : M Z :=
  fun s => (Ok (Date_getTime (clockReads s)), set_clockReads (S (clockReads s)) s).

Definition getItem (k : string) : M (option string) :=
  gets (fun s => localStorage s !! k).

(** The store has no quota: [setItem] does not throw. *)
Definition setItem (k v : string) : M unit :=
  modify (fun s => set_localStorage (<[k := v]> (localStorage s)) s).

Definition removeItem (k : string) : M unit :=
  modify (fun s => set_localStorage (delete k (localStorage s)) s).

(** [JSON.parse(text)] where an array of cuisine names is expected, together
    with the [forEach] that follows it: a [SyntaxError] of [JSON.parse] and
    the [TypeError] of a value without [forEach] are not told apart. *)
Definition parse_names (text : string) : M (list string) :=
  match JSON_parse_names text with
  | Some l => ret l
  | None => throw "SyntaxError"
  end.

(** [JSON.parse(text)] where an array of recipes is expected. *)
Definition parse_recipes (text : string) : M (list (Recipe number)) :=
  match JSON_parse_recipes text with
  | Some l => ret l
  | None => throw "SyntaxError"
  end.

(** *** [class RecipeCache] *)

(** [this.cache[cuisine]] is read among the own properties of the cache
    object.  That is what the code reads for every cuisine whose name is
    not the name of a member of [Object.prototype]; for such a name, when
    the cache has no own property of it, the code reads the inherited
    member, which the two functions below do not return. *)

Definition hasCuisine (cuisine : string) (s : State) : bool :=
  match obj_get cuisine (inMemoryCache s) with
  | Some recipes => (0 <? length recipes)%nat
  | None => false
  end.

Definition getRecipesForCuisine (cuisine : string) (s : State) : list (Recipe number) :=
  match obj_get cuisine (inMemoryCache s) with
  | Some recipes => recipes
  | None => []
  end.

Definition getAllRecipes (s : State) : list (Recipe number) :=
  concat (obj_values (inMemoryCache s)).

(** The callback of [cuisines.forEach(...)] in [clearCache]. *)
Definition removeEntry (cuisine : string) : M unit :=
  removeItem (CACHE_PREFIX +:+ cuisine).

Definition clearCache : M unit :=
  let* _ := modify (set_inMemoryCache []) in
  let* text := getItem CACHE_CUISINES in
  let* cuisines := parse_names (or_else text "[]") in
  let* _ := forEach removeEntry cuisines in
  let* _ := removeItem CACHE_CUISINES in
  removeItem CACHE_TIMESTAMP.

(** The callback of [cuisines.forEach(...)] in [saveToLocalStorage];
    [JSON.stringify(undefined)] is [undefined], which [setItem] stores as
    the text [undefined]. *)
Definition saveEntry (cuisine : string) : M unit :=
  let* entry := gets (fun s => obj_get cuisine (inMemoryCache s)) in
  setItem (CACHE_PREFIX +:+ cuisine)
    match entry with
    | Some recipes => JSON_stringify_recipes recipes
    | None => "undefined"
    end.

Definition saveToLocalStorage : M unit :=
  try_catch
    (let* now := Date_now in
     let* _ := setItem CACHE_TIMESTAMP (Z_toString now) in
     let* cuisines := gets (fun s => obj_keys (inMemoryCache s)) in
     let* _ := setItem CACHE_CUISINES (JSON_stringify_names cuisines) in
     forEach saveEntry cuisines)
    (fun _ => ret tt).

Definition addRecipes (cuisine : string) (recipes : list (Recipe number)) : M unit :=
  let* _ := modify (fun s => set_inMemoryCache (obj_set cuisine recipes (inMemoryCache s)) s) in
  saveToLocalStorage.

(** The callback of [cuisines.forEach(...)] in [loadFromLocalStorage]. *)
Definition loadEntry (cuisine : string) : M unit :=
  let* cachedData := getItem (CACHE_PREFIX +:+ cuisine) in
  if truthy_opt cachedData then
    let* recipes := parse_recipes (the_string cachedData) in
    modify (fun s => set_inMemoryCache (obj_set cuisine recipes (inMemoryCache s)) s)
  else ret tt.

Definition loadFromLocalStorage : M unit :=
  try_catch
    (let* timestamp := getItem CACHE_TIMESTAMP in
     let* now := Date_now in
     if (truthy_opt timestamp
         && match parseInt (the_string timestamp) with
            | Some t => (now - t <? CACHE_EXPIRY)%Z
            | None => false
            end)%bool
     then
       let* text := getItem CACHE_CUISINES in
       let* cuisines := parse_names (or_else text "[]") in
       forEach loadEntry cuisines
     else clearCache)
    (fun _ => clearCache).

(** [new RecipeCache()]: the field initialiser, then the constructor. *)
Definition RecipeCache_new : M unit :=
  let* _ := modify (set_inMemoryCache []) in
  loadFromLocalStorage.

(** *** [initializeCache] and [getRecipes] *)

Definition defaultCuisines : list string :=
  [ "Italian"; "Mexican"; "Chinese"; "Indian"; "Japanese";
    "Thai"; "French"; "Spanish"; "Greek"; "American" ].

(** [cuisinesToCache]; the code only logs its length. *)
Definition cuisinesToCache (cuisines : list string) : list string :=
  if (0 <? length cuisines)%nat then cuisines else defaultCuisines.

Definition call_getAllMockRecipes : M (list (string * MockValue)) :=
  fun s =>
    let s' := set_calls (calls s ++ [CallGetAllMockRecipes]) s in
    match getAllMockRecipes (calls s) with
    | Ok v => (Ok v, s')
    | Throw e => (Throw e, s')
    end.

Definition call_getMockRecipesForCuisine (cuisine : string) : M (list (Recipe number)) :=
  fun s =>
    let s' := set_calls (calls s ++ [CallGetMockRecipesForCuisine cuisine]) s in
    match getMockRecipesForCuisine (calls s) cuisine with
    | Ok v => (Ok v, s')
    | Throw e => (Throw e, s')
    end.

(** The callback of [Object.entries(allMockRecipes).forEach(...)]. *)
Definition initializeEntry (entry : string * MockValue) : M unit :=
  let '(cuisine, recipes) := entry in
  let* cached := gets (hasCuisine cuisine) in
  if negb cached then
    match recipes with
    | MockArray recipes => addRecipes cuisine recipes
    | MockNotArray => ret tt
    end
  else ret tt.

Definition initializeCache (cuisines : list string) : M bool :=
  try_catch
    (let cuisinesToCache := cuisinesToCache cuisines in
     let* _ := modify (set_usingMockData true) in
     let* allMockRecipes := call_getAllMockRecipes in
     let* _ := forEach initializeEntry allMockRecipes in
     ret true)
    (fun _ => ret false).

(** [cuisine] is [None] when the argument is left out. *)
Definition getRecipes (cuisine : option string) (forceRefresh : bool)
    : M (list (Recipe number)) :=
  if negb (truthy_opt cuisine) then gets getAllRecipes
  else
    let cuisine := the_string cuisine in
    let* cached := gets (hasCuisine cuisine) in
    if (cached && negb forceRefresh)%bool then gets (getRecipesForCuisine cuisine)
    else
      let* mockRecipes := call_getMockRecipesForCuisine cuisine in
      let* _ := if (0 <? length mockRecipes)%nat
                then addRecipes cuisine mockRecipes
                else ret tt in
      ret mockRecipes.

End Cache.

Arguments MockValue : clear implicits.
Arguments Platform : clear implicits.
Arguments State : clear implicits.
Arguments M : clear implicits.

(** ** The region resolver as the specification words it

    The layered decision of the specification (section 4.3), written from
    its text, to be compared with [inActiveRegion]. The set of continent
    labels is an argument. *)

Section Resolver.
Context {number : Type}.










End Resolver.

(** ** A reference platform

    A platform on which the statements below can be evaluated: integers as
    numbers, a clock given by a function, mock collections given by a table
    and [JSON] restricted to integers and to [\u] escapes of Basic Latin.
    It serves the examples only; the theorems hold for every platform. *)

Module Json.

#[warnings="-register-all"]
Inductive value : Type :=
  | Null
  | Bool (b : bool)
  | Num (n : Z)
  | Str (s : string)
  | Arr (items : list value)
  | Obj (members : list (string * value)).

Definition dquote : ascii := ascii_of_nat 34.
Definition backslash : ascii := ascii_of_nat 92.

Definition hex_char (n : nat) : ascii :=
  if (n <? 10)%nat then ascii_of_nat (48 + n) else ascii_of_nat (87 + n).

Definition escape_char (c : ascii) : string :=
  let n := nat_of_ascii c in
  if Nat.eqb n 34 then String backslash (String dquote "")
  else if Nat.eqb n 92 then String backslash (String backslash "")
  else if Nat.eqb n 8 then String backslash "b"
  else if Nat.eqb n 12 then String backslash "f"
  else if Nat.eqb n 10 then String backslash "n"
  else if Nat.eqb n 13 then String backslash "r"
  else if Nat.eqb n 9 then String backslash "t"
  else if (n <? 32)%nat then
    String backslash ("u00" +:+ String (hex_char (n / 16)) (String (hex_char (n mod 16)) ""))
  else String c "".

Fixpoint escape (s : string) : string :=
  match s with
  | EmptyString => EmptyString
  | String c s' => escape_char c +:+ escape s'
  end.

Definition quote (s : string) : string :=
  String dquote (escape s +:+ String dquote "").

Fixpoint join (sep : string) (l : list string) : string :=
  match l with
  | [] => ""
  | [x] => x
  | x :: l' => x +:+ sep +:+ join sep l'
  end.

(** [JSON.stringify]. *)
Fixpoint stringify (v : value) : string :=
  match v with
  | Null => "null"
  | Bool true => "true"
  | Bool false => "false"
  | Num n => Z_toString n
  | Str s => quote s
  | Arr items => "[" +:+ join "," (map stringify items) +:+ "]"
  | Obj members =>
      "{" +:+ join "," (map (fun kv => quote (fst kv) +:+ ":" +:+ stringify (snd kv)) members)
          +:+ "}"
  end.

Definition is_ws (c : ascii) : bool :=
  let n := nat_of_ascii c in
  (Nat.eqb n 32 || Nat.eqb n 9 || Nat.eqb n 10 || Nat.eqb n 13)%bool.

Fixpoint skip_ws (s : string) : string :=
  match s with
  | String c s' => if is_ws c then skip_ws s' else s
  | EmptyString => EmptyString
  end.

Definition hex_value (c : ascii) : option nat :=
  let n := nat_of_ascii c in
  if byte_in 48 57 c then Some (n - 48)%nat
  else if byte_in 97 102 c then Some (n - 87)%nat
  else if byte_in 65 70 c then Some (n - 55)%nat
  else None.

(** The text after an opening quote: the string it spells and the rest. *)
Fixpoint parse_string_body (s : string) : option (string * string) :=
  match s with
  | EmptyString => None
  | String c s1 =>
      if Ascii.eqb c dquote then Some ("", s1)
      else if Ascii.eqb c backslash then
        match s1 with
        | String e s2 =>
            let continue (b : ascii) (rest : option (string * string)) :=
              match rest with
              | Some (str, r) => Some (String b str, r)
              | None => None
              end in
            let n := nat_of_ascii e in
            if Nat.eqb n 34 then continue dquote (parse_string_body s2)
            else if Nat.eqb n 92 then continue backslash (parse_string_body s2)
            else if Nat.eqb n 47 then continue "/"%char (parse_string_body s2)
            else if Nat.eqb n 98 then continue (ascii_of_nat 8) (parse_string_body s2)
            else if Nat.eqb n 102 then continue (ascii_of_nat 12) (parse_string_body s2)
            else if Nat.eqb n 110 then continue (ascii_of_nat 10) (parse_string_body s2)
            else if Nat.eqb n 114 then continue (ascii_of_nat 13) (parse_string_body s2)
            else if Nat.eqb n 116 then continue (ascii_of_nat 9) (parse_string_body s2)
            else if Nat.eqb n 117 then
              match s2 with
              | String h1 (String h2 (String h3 (String h4 s3))) =>
                  match hex_value h1, hex_value h2, hex_value h3, hex_value h4 with
                  | Some 0%nat, Some 0%nat, Some a, Some b =>
                      if (a <? 8)%nat
                      then continue (ascii_of_nat (16 * a + b)) (parse_string_body s3)
                      else None
                  | _, _, _, _ => None
                  end
              | _ => None
              end
            else None
        | EmptyString => None
        end
      else if (nat_of_ascii c <? 32)%nat then None
      else
        match parse_string_body s1 with
        | Some (str, r) => Some (String c str, r)
        | None => None
        end
  end.

Fixpoint drop_digits (s : string) : string :=
  match s with
  | String c s' => if byte_in 48 57 c then drop_digits s' else s
  | EmptyString => EmptyString
  end.

(** An integer literal; a fraction or an exponent is not read. *)
Definition parse_number (s : string) : option (Z * string) :=
  let negative := String.prefix "-" s in
  let digits := if negative then drop_chars 1 s else s in
  let rest := drop_digits digits in
  match decimal_digits digits with
  | Decimal.Nil => None
  | d =>
      if (String.prefix "0" digits && negb (String.eqb (drop_chars 1 digits) rest))%bool
      then None
      else if (String.prefix "." rest || String.prefix "e" rest || String.prefix "E" rest)%bool
      then None
      else Some (if negative then (- Z.of_uint d)%Z else Z.of_uint d, rest)
  end.

Fixpoint parse_value (fuel : nat) (s : string) {struct fuel} : option (value * string) :=
  match fuel with
  | O => None
  | S fuel' =>
      match skip_ws s with
      | String c s1 as s0 =>
          if Ascii.eqb c dquote then
            match parse_string_body s1 with
            | Some (str, r) => Some (Str str, r)
            | None => None
            end
          else if Ascii.eqb c "[" then
            match skip_ws s1 with
            | String "]" r => Some (Arr [], r)
            | _ =>
                match parse_elements fuel' s1 with
                | Some (items, r) => Some (Arr items, r)
                | None => None
                end
            end
          else if Ascii.eqb c "{" then
            match skip_ws s1 with
            | String "}" r => Some (Obj [], r)
            | _ =>
                match parse_members fuel' s1 with
                | Some (members, r) => Some (Obj members, r)
                | None => None
                end
            end
          else if String.prefix "null" s0 then Some (Null, drop_chars 4 s0)
          else if String.prefix "true" s0 then Some (Bool true, drop_chars 4 s0)
          else if String.prefix "false" s0 then Some (Bool false, drop_chars 5 s0)
          else
            match parse_number s0 with
            | Some (n, r) => Some (Num n, r)
            | None => None
            end
      | EmptyString => None
      end
  end

with parse_elements (fuel : nat) (s : string) {struct fuel} : option (list value * string) :=
  match fuel with
  | O => None
  | S fuel' =>
      match parse_value fuel' s with
      | Some (v, r) =>
          match skip_ws r with
          | String "," r' =>
              match parse_elements fuel' r' with
              | Some (vs, r'') => Some (v :: vs, r'')
              | None => None
              end
          | String "]" r' => Some ([v], r')
          | _ => None
          end
      | None => None
      end
  end

with parse_members (fuel : nat) (s : string) {struct fuel}
    : option (list (string * value) * string) :=
  match fuel with
  | O => None
  | S fuel' =>
      match skip_ws s with
      | String c s1 =>
          if Ascii.eqb c dquote then
            match parse_string_body s1 with
            | Some (k, r) =>
                match skip_ws r with
                | String ":" r1 =>
                    match parse_value fuel' r1 with
                    | Some (v, r2) =>
                        match skip_ws r2 with
                        | String "," r3 =>
                            match parse_members fuel' r3 with
                            | Some (ms, r4) => Some ((k, v) :: ms, r4)
                            | None => None
                            end
                        | String "}" r3 => Some ([(k, v)], r3)
                        | _ => None
                        end
                    | None => None
                    end
                | _ => None
                end
            | None => None
            end
          else None
      | EmptyString => None
      end
  end.

(** [JSON.parse]; [None] when it throws. *)
Definition parse (text : string) : option value :=
  match parse_value (2 * String.length text + 2) text with
  | Some (v, r) => if String.eqb (skip_ws r) "" then Some v else None
  | None => None
  end.

(** A value read as a property key (its [ToString]). *)
Fixpoint to_key (v : value) : string :=
  match v with
  | Null => "null"
  | Bool true => "true"
  | Bool false => "false"
  | Num n => Z_toString n
  | Str s => s
  | Arr items =>
      join "," (map (fun x => match x with Null => "" | _ => to_key x end) items)
  | Obj _ => "[object Object]"
  end.

Definition member (k : string) (members : list (string * value)) : option value :=
  table_get k (rev members).

Definition get_string (k : string) (ms : list (string * value)) : option string :=
  match member k ms with Some (Str s) => Some s | _ => None end.

Definition get_bool (k : string) (ms : list (string * value)) : option bool :=
  match member k ms with Some (Bool b) => Some b | _ => None end.

Definition as_strings (v : value) : option (list string) :=
  match v with
  | Arr items => mapM (fun x => match x with Str s => Some s | _ => None end) items
  | _ => None
  end.

(** An optional array of strings: [Some None] when the member is absent. *)
Definition get_strings_opt (k : string) (ms : list (string * value))
    : option (option (list string)) :=
  match member k ms with
  | None => Some None
  | Some v => Some <$> as_strings v
  end.

Definition get_pair (k : string) (ms : list (string * value)) : option (Z * Z) :=
  match member k ms with
  | Some (Arr [Num a; Num b]) => Some (a, b)
  | _ => None
  end.

Definition strings_value (l : list string) : value := Arr (map Str l).

Definition optional_member (k : string) (o : option (list string))
    : list (string * value) :=
  match o with
  | Some l => [(k, strings_value l)]
  | None => []
  end.

Definition recipe_value (r : Recipe Z) : value :=
  Obj ([ ("id", Str (id r)); ("title", Str (title r)); ("country", Str (country r));
         ("region", Str (region r)); ("prepTime", Str (prepTime r));
         ("image", Str (image r)); ("isFavorite", Bool (isFavorite r));
         ("description", Str (description r));
         ("coordinates", Arr [Num (fst (coordinates r)); Num (snd (coordinates r))]) ]
       ++ optional_member "ingredients" (ingredients r)
       ++ optional_member "instructions" (instructions r)
       ++ optional_member "dietaryTags" (dietaryTags r)).

(** A value of another shape than a recipe has no reading in the typed
    model; on this platform it counts as a failure. *)
Definition value_recipe (v : value) : option (Recipe Z) :=
  match v with
  | Obj ms =>
      i ← get_string "id" ms; t ← get_string "title" ms;
      c ← get_string "country" ms; g ← get_string "region" ms;
      p ← get_string "prepTime" ms; im ← get_string "image" ms;
      f ← get_bool "isFavorite" ms; d ← get_string "description" ms;
      xy ← get_pair "coordinates" ms;
      ing ← get_strings_opt "ingredients" ms;
      ins ← get_strings_opt "instructions" ms;
      tags ← get_strings_opt "dietaryTags" ms;
      Some {| id := i; title := t; country := c; region := g; prepTime := p;
              image := im; isFavorite := f; description := d; coordinates := xy;
              ingredients := ing; instructions := ins; dietaryTags := tags |}
  | _ => None
  end.

Definition stringify_names (l : list string) : string := stringify (strings_value l).

Definition parse_names (text : string) : option (list string) :=
  match parse text with
  | Some (Arr items) => Some (map to_key items)
  | _ => None
  end.

Definition stringify_recipes (l : list (Recipe Z)) : string :=
  stringify (Arr (map recipe_value l)).

Definition parse_recipes (text : string) : option (list (Recipe Z)) :=
  match parse text with
  | Some (Arr items) => mapM value_recipe items
  | _ => None
  end.

End Json.

(** The platform with clock [clock] whose [mockData] module holds the
    collections [mock]; [getMockRecipesForCuisine] returns the array stored
    for a cuisine, or an empty array. *)
Definition samplePlatform (clock : nat -> Z) (mock : list (string * MockValue Z))
    : Platform Z :=
  {| Date_getTime := clock;
     JSON_stringify_names := Json.stringify_names;
     JSON_parse_names := Json.parse_names;
     JSON_stringify_recipes := Json.stringify_recipes;
     JSON_parse_recipes := Json.parse_recipes;
     getMockRecipesForCuisine := fun _ cuisine =>
       match table_get cuisine mock with
       | Some (MockArray recipes) => Ok recipes
       | _ => Ok []
       end;
     getAllMockRecipes := fun _ => Ok mock |}.


(** A clock that starts at [t0] and advances one hour between readings. *)
Definition hourlyClock (t0 : Z) (k : nat) : Z := (t0 + 3600000 * Z.of_nat k)%Z.

Definition carbonara : Recipe Z :=
  {| id := "mock-101"; title := "Spaghetti Carbonara"; country := "Italy";
     region := "Europe"; prepTime := "25 min"; image := "/images/carbonara.jpg";
     isFavorite := false; description := "Pasta with eggs, cheese and pork";
     coordinates := (42, 12);
     ingredients := Some ["spaghetti"; "eggs"; "pecorino"; "guanciale"];
     instructions := None; dietaryTags := None |}.

Definition tiramisu : Recipe Z :=
  {| id := "mock-102"; title := "Tiramisu"; country := "Italy";
     region := "Europe"; prepTime := "40 min"; image := "/images/tiramisu.jpg";
     isFavorite := true; description := "Coffee-flavoured dessert";
     coordinates := (42, 12);
     ingredients := None; instructions := Some ["Whisk"; "Layer"; "Chill"];
     dietaryTags := Some ["vegetarian"] |}.

Definition tacos : Recipe Z :=
  {| id := "mock-201"; title := "Tacos al Pastor"; country := "Mexico";
     region := "North America"; prepTime := "35 min"; image := "/images/tacos.jpg";
     isFavorite := false; description := "Marinated pork in corn tortillas";
     coordinates := (19, -99);
     ingredients := None; instructions := None; dietaryTags := None |}.

Definition emptyState : State Z :=
  {| inMemoryCache := []; localStorage := ∅; usingMockData := true;
     clockReads := 0; calls := [] |}.


Definition bibimbap : Recipe Z :=
  {| id := "kr-7"; title := "Bibimbap"; country := "Korea, Republic of";
     region := "Asia"; prepTime := "45 min"; image := "/images/bibimbap.jpg";
     isFavorite := false; description := "Rice with vegetables and egg";
     coordinates := (37, 127);
     ingredients := None; instructions := None; dietaryTags := None |}.

Definition sampleMock : list (string * MockValue Z) :=
  [ ("Italian", MockArray [carbonara; tiramisu]); ("Mexican", MockArray [tacos]) ].

(** The platform of the examples: the clock starts at 2023-11-14T22:13:20Z. *)
Definition examplePlatform : Platform Z :=
  samplePlatform (hourlyClock 1700000000000) sampleMock.

(** The state after [addRecipes("Italian", ...)] and
    [addRecipes("Mexican", ...)] on a new profile. *)
Definition twoCuisines : State Z :=
  snd (addRecipes (platform := examplePlatform) "Mexican" [tacos]
         (snd (addRecipes (platform := examplePlatform) "Italian" [carbonara; tiramisu] emptyState))).


(** A platform whose collection for [Italian] is an empty array. *)
Definition emptyItalianPlatform : Platform Z :=
  samplePlatform (hourlyClock 1700000000000)
    [ ("Italian", MockArray []); ("Mexican", MockArray [tacos]) ].

(** The state after [addRecipes("Italian", ...)] and
    [addRecipes("cuisines", [])] on a new profile: the entry of the cuisine
    named [cuisines] is written under the key of the list of names. *)
Definition cuisineNamedCuisines : State Z :=
  snd (addRecipes (platform := examplePlatform) "cuisines" []
         (snd (addRecipes (platform := examplePlatform) "Italian" [carbonara] emptyState))).

(** ** What the operations leave in the store and in the cache

    Closed forms of the effects of [saveToLocalStorage], [clearCache],
    [loadFromLocalStorage] and [initializeCache], used to state the
    properties below. *)

Section Effects.
Context {number : Type} {platform : Platform number}.

(** The text [saveToLocalStorage] writes for a cuisine of the cache [o]. *)
Definition entryText (o : list (string * list (Recipe number))) (cuisine : string) : string :=
  match obj_get cuisine o with
  | Some recipes => JSON_stringify_recipes recipes
  | None => "undefined"
  end.

(** The store after [saveToLocalStorage] at time [now] for the cache [o]. *)
Definition savedStorage (now : Z) (o : list (string * list (Recipe number)))
    (ls : gmap string string) : gmap string string :=
  fold_left (fun ls cuisine => <[CACHE_PREFIX +:+ cuisine := entryText o cuisine]> ls)
    (obj_keys o)
    (<[CACHE_CUISINES := JSON_stringify_names (obj_keys o)]>
       (<[CACHE_TIMESTAMP := Z_toString now]> ls)).

(** The store after [clearCache] when the persisted list names [cuisines]. *)
Definition clearedStorage (cuisines : list string) (ls : gmap string string)
    : gmap string string :=
  delete CACHE_TIMESTAMP
    (delete CACHE_CUISINES
       (fold_left (fun ls cuisine => delete (CACHE_PREFIX +:+ cuisine) ls) cuisines ls)).

(** The cuisine names the persisted list of [ls] holds; [None] when reading
    it throws. *)
Definition persistedNames (ls : gmap string string) : option (list string) :=
  JSON_parse_names (or_else (ls !! CACHE_CUISINES) "[]").

(** The persisted time stamp of [ls] is within the expiry window at [now]. *)
Definition freshAt (now : Z) (ls : gmap string string) : bool :=
  (truthy_opt (ls !! CACHE_TIMESTAMP)
   && match parseInt (the_string (ls !! CACHE_TIMESTAMP)) with
      | Some t => (now - t <? CACHE_EXPIRY)%Z
      | None => false
      end)%bool.

(** What [loadEntry] does with the persisted entry of a cuisine. *)
Inductive EntryStatus : Type :=
  | EntryMissing                                   (* no text, or an empty one *)
  | EntryBroken                                    (* [JSON.parse] throws *)
  | EntryLoaded (recipes : list (Recipe number)).

Definition entryStatus (ls : gmap string string) (cuisine : string) : EntryStatus :=
  match ls !! (CACHE_PREFIX +:+ cuisine) with
  | Some text =>
      if truthy text then
        match JSON_parse_recipes text with
        | Some recipes => EntryLoaded recipes
        | None => EntryBroken
        end
      else EntryMissing
  | None => EntryMissing
  end.

Definition isBroken (ls : gmap string string) (cuisine : string) : bool :=
  match entryStatus ls cuisine with EntryBroken => true | _ => false end.

(** The effect of [loadEntry] on the cache object, and the cache object
    [loadFromLocalStorage] builds from the names [cuisines] when no entry
    is broken. *)
Definition loadStep (ls : gmap string string) (o : list (string * list (Recipe number)))
    (cuisine : string) : list (string * list (Recipe number)) :=
  match entryStatus ls cuisine with
  | EntryLoaded recipes => obj_set cuisine recipes o
  | _ => o
  end.

Definition loadedCache (ls : gmap string string) (cuisines : list string)
    : list (string * list (Recipe number)) :=
  fold_left (loadStep ls) cuisines [].

(** [JSON] reads back what it wrote for the array [l], and what it wrote
    is not the empty text. *)
Definition namesRoundTrip (l : list string) : Prop :=
  truthy (JSON_stringify_names l) = true
  /\ JSON_parse_names (JSON_stringify_names l) = Some l.

Definition recipesRoundTrip (l : list (Recipe number)) : Prop :=
  truthy (JSON_stringify_recipes l) = true
  /\ JSON_parse_recipes (JSON_stringify_recipes l) = Some l.

(** The cache object [o] holds a non-empty sequence for [c]. *)
Definition cachedIn (c : string) (o : list (string * list (Recipe number))) : Prop :=
  exists r l, obj_get c o = Some (r :: l).

(** The effect of one entry of [getAllMockRecipes()] on the cache object. *)
Definition initializeEntryCache (o : list (string * list (Recipe number)))
    (entry : string * MockValue number) : list (string * list (Recipe number)) :=
  match obj_get (fst entry) o, snd entry with
  | Some (_ :: _), _ => o
  | _, MockArray recipes => obj_set (fst entry) recipes o
  | _, MockNotArray => o
  end.

End Effects.

(** ** Proof automation *)

(** Runs the primitive computations of [M] at the head of the goal and
    normalises the projections of updated states. *)
Ltac run :=
  unfold getItem, setItem, removeItem, Date_now, parse_names, parse_recipes,
    try_catch, bind, ret, throw, gets, modify;
  cbn [inMemoryCache localStorage usingMockData clockReads calls
       set_inMemoryCache set_localStorage set_usingMockData set_clockReads
       set_calls fst snd].

(** ** The recipe panel and the remaining state updates of [Home]
    ([RecipePanel.tsx]) and of the hook ([useRecipes.ts]) *)

Section Panel.
Context {number : Type}.

(** [toggleDietaryFilter]: the update of the [dietaryFilters] state,
    [prev.includes(filter) ? prev.filter(f => f !== filter) : [...prev, filter]]. *)
Definition toggleDietaryFilter (filter0 : string) (prev : list string) : list string :=
  if array_includes prev filter0
  then List.filter (fun f => negb (String.eqb f filter0)) prev
  else (prev ++ [filter0])%list.

(** [matchesSearch] of the panel's filter. *)
Definition matchesSearch (searchTerm : string) (recipe : Recipe number) : bool :=
  includes (toLowerCase (title recipe)) (toLowerCase searchTerm).

(** [matchesDietary] of the panel's filter, as the condition it is used as:
    an absent [dietaryTags] makes the conjunction [undefined], which is
    falsy. *)
Definition matchesDietary (dietaryFilters : list string) (recipe : Recipe number) : bool :=
  (Nat.eqb (List.length dietaryFilters) 0
   || match dietaryTags recipe with
      | Some tags => forallb (fun filter0 => array_includes tags filter0) dietaryFilters
      | None => false
      end)%bool.

(** [filteredRecipes] of the [RecipePanel] component (the name
    [filteredRecipes] is that of the list [Home] derives). *)
Definition panelFilteredRecipes (searchTerm : string) (dietaryFilters : list string)
    (recipes : list (Recipe number)) : list (Recipe number) :=
  List.filter (fun recipe => (matchesSearch searchTerm recipe
                              && matchesDietary dietaryFilters recipe)%bool) recipes.

Definition favoriteRecipes (recipes : list (Recipe number)) : list (Recipe number) :=
  List.filter (fun recipe => isFavorite recipe) recipes.

(** [activeTab === "explore" ? filteredRecipes : favoriteRecipes]. *)
Definition displayedRecipes (activeTab searchTerm : string) (dietaryFilters : list string)
    (recipes : list (Recipe number)) : list (Recipe number) :=
  if String.eqb activeTab "explore"
  then panelFilteredRecipes searchTerm dietaryFilters recipes
  else favoriteRecipes recipes.

(** *** The effect of [Home] that follows [activeRegion] *)

(** The [countryToCuisine] table declared inside the effect (it is not the
    table of the filter). *)
Definition effect_countryToCuisine : list (string * string) :=
  [ ("Italy", "Italian"); ("France", "French"); ("Spain", "Spanish");
    ("Greece", "Greek"); ("Germany", "German"); ("United Kingdom", "British");
    ("China", "Chinese"); ("Japan", "Japanese"); ("Thailand", "Thai");
    ("India", "Indian"); ("Korea", "Korean"); ("Vietnam", "Vietnamese");
    ("USA", "American"); ("United States", "American");
    ("United States of America", "American"); ("Mexico", "Mexican");
    ("Lebanon", "Middle Eastern"); ("Turkey", "Middle Eastern");
    ("Iran", "Middle Eastern") ].

Definition regionToCuisine : list (string * string) :=
  [ ("North America", "American"); ("South America", "Latin American");
    ("Europe", "European"); ("Africa", "African"); ("Asia", "Asian");
    ("Australia", "Australian") ].

(** The cuisine the effect passes to [updateCuisine] for
    [activeRegion.name = name0]; [None] stands for a member inherited from
    [Object.prototype], which is truthy and is passed on as it is. *)
Definition effectCuisine (name0 : string) : option string :=
  let cuisine := member name0 effect_countryToCuisine in
  let cuisine :=
    match cuisine with
    | Own c => if negb (truthy c) then member name0 regionToCuisine else cuisine
    | Inherited => cuisine
    | Absent => member name0 regionToCuisine
    end in
  match cuisine with
  | Own c => Some (if negb (truthy c) then "Italian" else c)
  | Inherited => None
  | Absent => Some "Italian"
  end.

(** *** [toggleFavorite] of [Home] *)

(** The two states it updates: the hook's [recipes] (through
    [apiToggleFavorite]) and [selectedRecipe]. *)
Definition homeToggleFavorite (id0 : string)
    (st : list (Recipe number) * option (Recipe number))
    : list (Recipe number) * option (Recipe number) :=
  let '(recipes, selectedRecipe) := st in
  (toggleFavorite id0 recipes,
   match selectedRecipe with
   | Some selected =>
       if String.eqb (id selected) id0
       then Some (with_isFavorite selected (negb (isFavorite selected)))
       else Some selected
   | None => None
   end).

(** *** [getRecipesByRegion] of the hook *)

Definition getRecipesByRegion (recipes : list (Recipe number)) (region0 : option string)
    : list (Recipe number) :=
  if negb (truthy_opt region0) then recipes
  else List.filter (fun recipe => String.eqb (region recipe) (the_string region0)) recipes.

End Panel.

(** ** The recipe transformation ([api.ts]) *)

(** [s.split(" ")]. *)
Fixpoint split_space (s : string) : list string :=
  match s with
  | EmptyString => [EmptyString]
  | String c s' =>
      if Ascii.eqb c " "%char then EmptyString :: split_space s'
      else match split_space s' with
           | word :: words => String c word :: words
           | [] => [String c EmptyString]
           end
  end.

(** [words.join(" ")]. *)
Definition join_space (words : list string) : string := String.concat " " words.

(** [word[0].toUpperCase() + word.slice(1)] for a word that is not empty,
    on Basic Latin and on the Latin-1 Supplement: U+00E0..U+00FE without
    U+00F7 lose 32, U+00DF becomes [SS], U+00FF becomes U+0178 and U+00B5
    becomes U+039C.  Of the other letters, the two whose capital is a Basic
    Latin letter are mapped (U+0131 to [I], U+017F to [S]); the rest of the
    text is left as it is. *)
Definition upperFirst (word : string) : string :=
  match word with
  | EmptyString => EmptyString
  | String c rest =>
      if byte_in 97 122 c then String (ascii_of_nat (nat_of_ascii c - 32)) rest
      else
        match rest with
        | String d rest' =>
            if Nat.eqb (nat_of_ascii c) 195 then
              if (byte_in 160 190 d && negb (Nat.eqb (nat_of_ascii d) 183))%bool
              then String c (String (ascii_of_nat (nat_of_ascii d - 32)) rest')
              else if Nat.eqb (nat_of_ascii d) 159 then "SS" +:+ rest'
              else if Nat.eqb (nat_of_ascii d) 191
                   then String (ascii_of_nat 197) (String (ascii_of_nat 184) rest')
                   else word
            else if (Nat.eqb (nat_of_ascii c) 194 && Nat.eqb (nat_of_ascii d) 181)%bool
                 then String (ascii_of_nat 206) (String (ascii_of_nat 156) rest')
            else if (Nat.eqb (nat_of_ascii c) 196 && Nat.eqb (nat_of_ascii d) 177)%bool
                 then String "I"%char rest'
            else if (Nat.eqb (nat_of_ascii c) 197 && Nat.eqb (nat_of_ascii d) 191)%bool
                 then String "S"%char rest'
                 else word
        | EmptyString => word
        end
  end.

(** The callback [word => word[0].toUpperCase() + word.slice(1)]: on the
    empty word [word[0]] is [undefined] and the call throws. *)
Definition capitalize (word : string) : Result string :=
  match word with
  | EmptyString => Throw "TypeError"
  | _ => Ok (upperFirst word)
  end.

(** [l.map(f)] for a callback that may throw. *)
Fixpoint map_throwing {A B : Type} (f : A -> Result B) (l : list A) : Result (list B) :=
  match l with
  | [] => Ok []
  | x :: l' =>
      match f x with
      | Ok y => match map_throwing f l' with
                | Ok ys => Ok (y :: ys)
                | Throw e => Throw e
                end
      | Throw e => Throw e
      end
  end.

(** [s.replace(/<\/?[^>]+(>|$)/g, "")]: a [<] that is followed by at least
    one character other than [>] starts a match, which runs through the
    next [>], or to the end of the text when there is none; a [<] followed
    by [>] or by nothing is kept. *)
Fixpoint stripTags (s : string) : string :=
  match s with
  | EmptyString => EmptyString
  | String c s' =>
      if Ascii.eqb c "<"%char then
        match s' with
        | String d _ =>
            if Ascii.eqb d ">"%char then String c (stripTags s') else skipTag s'
        | EmptyString => String c EmptyString
        end
      else String c (stripTags s')
  end
with skipTag (s : string) : string :=
  match s with
  | EmptyString => EmptyString
  | String c s' => if Ascii.eqb c ">"%char then stripTags s' else skipTag s'
  end.

(** [getRegionFromCountry]'s table. *)
Definition countryToRegion : list (string * string) :=
  [ ("American", "North America"); ("Mexican", "North America");
    ("Canadian", "North America");
    ("British", "Europe"); ("French", "Europe"); ("Italian", "Europe");
    ("Spanish", "Europe"); ("German", "Europe"); ("Greek", "Europe");
    ("Mediterranean", "Europe");
    ("Indian", "Asia"); ("Chinese", "Asia"); ("Japanese", "Asia");
    ("Korean", "Asia"); ("Thai", "Asia"); ("Vietnamese", "Asia");
    ("Middle Eastern", "Asia");
    ("Brazilian", "South America"); ("Peruvian", "South America");
    ("Argentine", "South America"); ("Colombian", "South America");
    ("African", "Africa"); ("Moroccan", "Africa"); ("Ethiopian", "Africa");
    ("Australian", "Australia"); ("New Zealand", "Australia") ].

(** [countryToRegion[country] || 'Global']; [None] stands for a member
    inherited from [Object.prototype], which is returned as it is. *)
Definition getRegionFromCountry (country0 : string) : option string :=
  match member country0 countryToRegion with
  | Own region0 => Some (if truthy region0 then region0 else "Global")
  | Inherited => None
  | Absent => Some "Global"
  end.

Section Api.
Context {number : Type}.

(** What the transformation takes from the language: the text of a number
    in a template literal, and the number a decimal literal denotes
    ([decimal m k] is the literal of value [m / 10^k]). *)
Class Numbers : Type := {
  Number_toString : number -> string;
  decimal : Z -> nat -> number;
}.

Context {numbers : Numbers}.

(** The fields of [interface Step], [ExtendedIngredient],
    [AnalyzedInstruction] and [SpoonacularRecipeDetail] the code reads.
    [cuisines] and [diets] are the two the code tests for absence. *)
Record Step : Type := {
  step : string;
}.

Record ExtendedIngredient : Type := {
  ingredient_name : string;
  amount : number;
  ingredient_unit : string;
}.

Record AnalyzedInstruction : Type := {
  steps : list Step;
}.

Record SpoonacularRecipeDetail : Type := {
  recipe_id : number;
  recipe_title : string;
  recipe_image : string;
  readyInMinutes : number;
  analyzedInstructions : list AnalyzedInstruction;
  cuisines : option (list string);
  dairyFree : bool;
  diets : option (list string);
  glutenFree : bool;
  vegan : bool;
  vegetarian : bool;
  extendedIngredients : list ExtendedIngredient;
  summary : string;
}.

Definition cuisineToCoordinates : list (string * (number * number)) :=
  [ ("african", (decimal 87832 4, decimal 345085 4));
    ("american", (decimal 397837304 7, decimal (-1004458825) 7));
    ("british", (decimal 553781 4, decimal (-34360) 4));
    ("cajun", (decimal 309843 4, decimal (-919623) 4));
    ("caribbean", (decimal 182208 4, decimal (-665901) 4));
    ("chinese", (decimal 358617 4, decimal 1041954 4));
    ("eastern european", (decimal 500755 4, decimal 144378 4));
    ("european", (decimal 488566 4, decimal 23522 4));
    ("french", (decimal 462276 4, decimal 22137 4));
    ("german", (decimal 511657 4, decimal 104515 4));
    ("greek", (decimal 390742 4, decimal 218243 4));
    ("indian", (decimal 205937 4, decimal 789629 4));
    ("irish", (decimal 531424 4, decimal (-76921) 4));
    ("italian", (decimal 418719 4, decimal 125674 4));
    ("japanese", (decimal 362048 4, decimal 1382529 4));
    ("jewish", (decimal 310461 4, decimal 348516 4));
    ("korean", (decimal 359078 4, decimal 1277669 4));
    ("latin american", (decimal (-87832) 4, decimal (-554915) 4));
    ("mediterranean", (decimal 412921 4, decimal 282978 4));
    ("mexican", (decimal 236345 4, decimal (-1025528) 4));
    ("middle eastern", (decimal 292985 4, decimal 425510 4));
    ("nordic", (decimal 601282 4, decimal 186435 4));
    ("southern", (decimal 332467 4, decimal (-887477) 4));
    ("spanish", (decimal 404637 4, decimal (-37492) 4));
    ("thai", (decimal 158700 4, decimal 1009925 4));
    ("vietnamese", (decimal 140583 4, decimal 1082772 4)) ].

(** [getDietaryTags]; the callback of [recipe.diets.forEach(...)] first. *)
Definition pushDiet (tags : list string) (diet : string) : list string :=
  if negb (array_includes tags diet) then (tags ++ [diet])%list else tags.

Definition getDietaryTags (recipe : SpoonacularRecipeDetail) : list string :=
  let tags : list string := [] in
  let tags := if vegetarian recipe then (tags ++ ["vegetarian"])%list else tags in
  let tags := if vegan recipe then (tags ++ ["vegan"])%list else tags in
  let tags := if glutenFree recipe then (tags ++ ["gluten-free"])%list else tags in
  let tags := if dairyFree recipe then (tags ++ ["dairy-free"])%list else tags in
  match diets recipe with
  | Some diets0 =>
      if (0 <? List.length diets0)%nat then fold_left pushDiet diets0 tags else tags
  | None => tags
  end.

(** [recipe.cuisines[0]] under the test [recipe.cuisines?.length > 0]. *)
Definition firstCuisine (recipe : SpoonacularRecipeDetail) : option string :=
  match cuisines recipe with
  | Some (cuisine :: _) => Some cuisine
  | _ => None
  end.

(** The [country] of the transformed recipe. *)
Definition countryOfCuisine (recipe : SpoonacularRecipeDetail) : Result string :=
  match firstCuisine recipe with
  | Some cuisine =>
      match map_throwing capitalize (split_space cuisine) with
      | Ok words => Ok (join_space words)
      | Throw e => Throw e
      end
  | None => Ok "Global"
  end.

(** What a call of [transformSpoonacularRecipe] gives: an object of the
    shape of [Recipe]; an object whose [coordinates] or [region] is a member
    inherited from [Object.prototype]; or an exception. *)
Inductive Transformed : Type :=
  | Returned (r : Recipe number)
  | Untyped
  | Thrown (e : Error).

(** [random] is the value of
    [[Math.random() * 180 - 90, Math.random() * 360 - 180]], used when the
    first cuisine has no coordinates. *)
Definition transformSpoonacularRecipe (random : number * number)
    (recipe : SpoonacularRecipeDetail) : Transformed :=
  let coordinates0 :=
    match firstCuisine recipe with
    | Some cuisine =>
        match member (toLowerCase cuisine) cuisineToCoordinates with
        | Own c => Some c
        | Inherited => None
        | Absent => Some random
        end
    | None => Some random
    end in
  match countryOfCuisine recipe with
  | Throw e => Thrown e
  | Ok country0 =>
      match coordinates0, getRegionFromCountry country0 with
      | Some coordinates0, Some region0 =>
          Returned
            {| id := "spoonacular-" +:+ Number_toString (recipe_id recipe);
               title := recipe_title recipe;
               country := country0;
               region := region0;
               prepTime := Number_toString (readyInMinutes recipe) +:+ " min";
               image := recipe_image recipe;
               isFavorite := false;
               description := stripTags (summary recipe);
               coordinates := coordinates0;
               ingredients :=
                 Some (map (fun ing => Number_toString (amount ing) +:+ " "
                                       +:+ ingredient_unit ing +:+ " "
                                       +:+ ingredient_name ing)
                           (extendedIngredients recipe));
               instructions :=
                 Some match analyzedInstructions recipe with
                      | first :: _ => map step (steps first)
                      | [] => []
                      end;
               dietaryTags := Some (getDietaryTags recipe) |}
      | _, _ => Untyped
      end
  end.

End Api.

Arguments Numbers : clear implicits.
Arguments Step : clear implicits.
Arguments ExtendedIngredient : clear implicits.
Arguments AnalyzedInstruction : clear implicits.
Arguments SpoonacularRecipeDetail : clear implicits.
Arguments Transformed : clear implicits.

(** ** The hook [useRecipes] ([useRecipes.ts]) *)

Section Hook.
Context {number : Type} {platform : Platform number}.

Notation "'let*' x ':=' m 'in' k" := (bind m (fun x => k))
  (at level 10, x pattern, m at level 100, k at level 200).

(** The four [useState] cells of the hook. *)
Record HookState : Type := {
  recipes : list (Recipe number);
  loading : bool;
  error : option string;
  selectedCuisine : option string;
}.

Definition setRecipes (l : list (Recipe number)) (h : HookState) : HookState :=
  {| recipes := l; loading := loading h; error := error h;
     selectedCuisine := selectedCuisine h |}.

Definition setLoading (b : bool) (h : HookState) : HookState :=
  {| recipes := recipes h; loading := b; error := error h;
     selectedCuisine := selectedCuisine h |}.

Definition setError (e : option string) (h : HookState) : HookState :=
  {| recipes := recipes h; loading := loading h; error := e;
     selectedCuisine := selectedCuisine h |}.

Definition setSelectedCuisine (c : option string) (h : HookState) : HookState :=
  {| recipes := recipes h; loading := loading h; error := error h;
     selectedCuisine := c |}.

(** [useState] initial values; [Home] passes no [initialCuisine]. *)
Definition initialHook (initialCuisine : option string) : HookState :=
  {| recipes := []; loading := false; error := None;
     selectedCuisine := initialCuisine |}.

Definition fetchFailure (cuisine : string) : string :=
  "Failed to fetch " +:+ cuisine +:+ " recipes. Please try again later.".

Definition initFailure : string :=
  "Failed to initialize recipe data. Please try again later.".

(** [fetchRecipesForCuisine], run to completion; the hook state is passed
    along, the cache state is that of the monad.  The last line is the
    [finally] block. *)
Definition fetchRecipesForCuisine (cuisine : string) (h : HookState) : M number HookState :=
  let h := setLoading true h in
  let h := setError None h in
  let* h :=
    try_catch
      (let* cached := gets (hasCuisine cuisine) in
       if cached then
         let* cachedRecipes := gets (getRecipesForCuisine cuisine) in
         let h := setRecipes cachedRecipes h in
         ret (setLoading false h)
       else
         let* fetchedRecipes := getRecipes (Some cuisine) false in
         ret (setRecipes fetchedRecipes h))
      (fun _ =>
         let h := setError (Some (fetchFailure cuisine)) h in
         ret (setRecipes [] h)) in
  ret (setLoading false h).

(** [initCache], the effect run on mount. *)
Definition initCache (h : HookState) : M number HookState :=
  let h := setLoading true h in
  let* h :=
    try_catch
      (let* success := initializeCache [] in
       let* allCachedRecipes := gets getAllRecipes in
       if (0 <? List.length allCachedRecipes)%nat
       then ret (setRecipes allCachedRecipes h)
       else fetchRecipesForCuisine "Italian" h)
      (fun _ => ret (setError (Some initFailure) h)) in
  ret (setLoading false h).

(** The effect on [selectedCuisine]. *)
Definition selectedCuisineEffect (h : HookState) : M number HookState :=
  if negb (truthy_opt (selectedCuisine h)) then ret h
  else fetchRecipesForCuisine (the_string (selectedCuisine h)) h.

Definition updateCuisine (cuisine : string) (h : HookState) : HookState :=
  setSelectedCuisine (Some cuisine) h.

End Hook.

Arguments HookState : clear implicits.

(** ** Views used in the statements about the transformation *)

(** No [<] of [s] is followed by a character other than [>]: the pattern
    [/<\/?[^>]+(>|$)/] matches nowhere in [s]. *)
Fixpoint tagFree (s : string) : bool :=
  match s with
  | EmptyString => true
  | String c s' =>
      ((negb (Ascii.eqb c "<"%char)
        || match s' with
           | String d _ => Ascii.eqb d ">"%char
           | EmptyString => true
           end)
       && tagFree s')%bool
  end.

(** *** Sample data of the transformation *)

(** Numbers as integers: a decimal literal is cut to its integer part. *)
Definition integerNumbers : Numbers Z :=
  {| Number_toString := Z_toString;
     decimal := fun m k => Z.quot m (10 ^ Z.of_nat k) |}.

Definition irishStew : SpoonacularRecipeDetail Z :=
  {| recipe_id := 716429; recipe_title := "Irish Stew";
     recipe_image := "https://img.example/716429.jpg"; readyInMinutes := 90;
     analyzedInstructions :=
       [ {| steps := [ {| step := "Brown the lamb." |}; {| step := "Simmer." |} ] |} ];
     cuisines := Some ["Irish"; "European"];
     dairyFree := true; diets := Some ["gluten free"; "dairy-free"];
     glutenFree := true; vegan := false; vegetarian := false;
     extendedIngredients :=
       [ {| ingredient_name := "lamb shoulder"; amount := 2; ingredient_unit := "lb" |};
         {| ingredient_name := "potatoes"; amount := 4; ingredient_unit := "" |} ];
     summary := "A <b>hearty</b> stew.<br/>Serves 4 <" |}.

(** The same recipe with an empty first cuisine. *)
Definition unnamedCuisine : SpoonacularRecipeDetail Z :=
  {| recipe_id := 716429; recipe_title := "Irish Stew";
     recipe_image := "https://img.example/716429.jpg"; readyInMinutes := 90;
     analyzedInstructions := [];
     cuisines := Some [""];
     dairyFree := true; diets := None;
     glutenFree := true; vegan := false; vegetarian := false;
     extendedIngredients := [];
     summary := "" |}.

(** ** The order of the keys of an object *)

(** [k] is enumerated before [k']: an array index before a larger index and
    before every other key. *)
Definition key_before (k k' : string) : bool :=
  match array_index k, array_index k' with
  | Some n, Some n' => (n <=? n')%N
  | Some _, None => true
  | None, Some _ => false
  | None, None => true
  end.

(** The keys [ks] are distinct and in the order of enumeration. *)
Fixpoint key_order (ks : list string) : bool :=
  match ks with
  | [] => true
  | k :: ks' =>
      (negb (array_includes ks' k) && forallb (key_before k) ks' && key_order ks')%bool
  end.

(** The recipe made of [irishStew]: the coordinates are those of the
    table, the region is [Global]. *)
Definition irishStewRecipe : Recipe Z :=
  {| id := "spoonacular-716429"; title := "Irish Stew"; country := "Irish";
     region := "Global"; prepTime := "90 min";
     image := "https://img.example/716429.jpg"; isFavorite := false;
     description := "A hearty stew.Serves 4 <";
     coordinates := (53, -7);
     ingredients := Some ["2 lb lamb shoulder"; "4  potatoes"];
     instructions := Some ["Brown the lamb."; "Simmer."];
     dietaryTags := Some ["gluten-free"; "dairy-free"; "gluten free"] |}.

(** * Properties *)

(** ** The favourite toggle *)

Section ToggleFavorite.
Context {number : Type}.
Implicit Types (r : Recipe number) (l : list (Recipe number)).

Lemma with_isFavorite_same r : with_isFavorite r (isFavorite r) = r.
Proof. by destruct r. Qed.

Lemma with_isFavorite_twice r b b' :
  with_isFavorite (with_isFavorite r b) b' = with_isFavorite r b'.
Proof. reflexivity. Qed.

Lemma toggleFavorite_lookup id0 l (i : nat) :
  toggleFavorite id0 l !! i =
  (fun r => if String.eqb (id r) id0
            then with_isFavorite r (negb (isFavorite r)) else r) <$> l !! i.
Proof. unfold toggleFavorite. apply list_lookup_fmap. Qed.

Lemma toggleFavorite_involutive id0 l :
  toggleFavorite id0 (toggleFavorite id0 l) = l.
Proof.
  induction l as [|r l IH]; [reflexivity|].
  cbn [toggleFavorite map] in *. f_equal; [|exact IH].
  destruct (String.eqb (id r) id0) eqn:E.
  - cbn [id with_isFavorite isFavorite]. rewrite E.
    rewrite with_isFavorite_twice, negb_involutive. apply with_isFavorite_same.
  - by rewrite E.
Qed.

(** C10. [toggleFavorite id0] keeps the length and the order of the list:
    the recipe at each position stays a recipe with the same fields,
    [isFavorite] apart; a recipe whose identifier differs from [id0] is
    unchanged, a recipe whose identifier is [id0] has [isFavorite] negated;
    and toggling twice gives the list back. *)
Theorem toggleFavorite_frame (id0 : string) (l : list (Recipe number)) :
  length (toggleFavorite id0 l) = length l
  /\ (forall (i : nat) (r : Recipe number), l !! i = Some r ->
        exists r', toggleFavorite id0 l !! i = Some r'
          /\ (id r <> id0 -> r' = r)
          /\ (id r = id0 -> isFavorite r' = negb (isFavorite r))
          /\ id r' = id r /\ title r' = title r /\ country r' = country r
          /\ region r' = region r /\ prepTime r' = prepTime r
          /\ image r' = image r /\ description r' = description r
          /\ coordinates r' = coordinates r /\ ingredients r' = ingredients r
          /\ instructions r' = instructions r /\ dietaryTags r' = dietaryTags r)
  /\ (forall (i : nat), l !! i = None -> toggleFavorite id0 l !! i = None)
  /\ toggleFavorite id0 (toggleFavorite id0 l) = l.
Proof.
  split; [apply length_map|].
  split; [|split; [|apply toggleFavorite_involutive]].
  - intros i r Hi. rewrite toggleFavorite_lookup, Hi. cbn [fmap option_fmap option_map].
    destruct (String.eqb_spec (id r) id0) as [E|E].
    + eexists; split; [reflexivity|].
      split; [intros Hne; by destruct Hne|].
      by repeat split.
    + exists r. split; [reflexivity|]. split; [done|].
      split; [intros Heq; by destruct E|]. by repeat split.
  - intros i Hi. by rewrite toggleFavorite_lookup, Hi.
Qed.

End ToggleFavorite.

(** ** The region filter *)

Section RegionFilter.
Context {number : Type}.
Implicit Types (r : Recipe number) (s : string).

Lemma array_includes_elem (l : list string) (x : string) :
  array_includes l x = bool_decide (x ∈ l).
Proof.
  unfold array_includes. induction l as [|y l IH]; cbn [existsb].
  - by rewrite bool_decide_eq_false_2 by (apply not_elem_of_nil).
  - rewrite IH. destruct (String.eqb_spec x y) as [->|Hne].
    + cbn [orb]. symmetry. apply bool_decide_eq_true_2. left.
    + cbn [orb]. apply bool_decide_ext. rewrite elem_of_cons.
      split; [by right|by intros [?|?]].
Qed.






Lemma toLowerCase_truthy (c : string) : truthy (toLowerCase c) = truthy c.
Proof.
  destruct c as [|a [|b c]]; [done..|].
  cbn [toLowerCase]. by case_match.
Qed.




(** [filter_throwing] for a callback that does not throw. *)
Lemma filter_throwing_Ok {A : Type} (f : A -> Result bool) (g : A -> bool) (l : list A) :
  (forall x, x ∈ l -> f x = Ok (g x)) -> filter_throwing f l = Ok (List.filter g l).
Proof.
  induction l as [|x l IH]; intros H; cbn [filter_throwing List.filter]; [done|].
  rewrite (H x) by left. rewrite IH by (intros y Hy; apply H; by right).
  by destruct (g x).
Qed.

(** [filter_throwing] throws exactly when the callback throws on an
    element. *)
Lemma filter_throwing_Throw {A : Type} (f : A -> Result bool) (l : list A) :
  (exists e, filter_throwing f l = Throw e) <-> exists x e, x ∈ l /\ f x = Throw e.
Proof.
  induction l as [|x l IH]; cbn [filter_throwing].
  - split; [by intros [? ?]|]. intros (? & ? & H & _). by apply elem_of_nil in H.
  - destruct (f x) as [b|e] eqn:Hx.
    + destruct (filter_throwing f l) as [kept|e'].
      * split; [by intros [? ?]|]. intros (y & e & [->|Hy]%elem_of_cons & Hf).
        -- by rewrite Hx in Hf.
        -- destruct (proj2 IH) as [? ?]; [by exists y, e|done].
      * split; [|by exists e']. intros _.
        destruct (proj1 IH) as (y & e & Hy & Hf); [by exists e'|].
        exists y, e. split; [by right|done].
    + split; [|by exists e]. intros _. exists x, e. split; [left|done].
Qed.

End RegionFilter.

(** ** Numerals *)

Lemma decimal_digits_string_of_uint (d : Decimal.uint) :
  decimal_digits (NilEmpty.string_of_uint d) = d.
Proof.
  induction d as [|d IH|d IH|d IH|d IH|d IH|d IH|d IH|d IH|d IH|d IH];
    cbn [NilEmpty.string_of_uint decimal_digits]; [done|by rewrite IH..].
Qed.

Lemma string_of_uint_truthy (d : Decimal.uint) :
  d <> Decimal.Nil -> truthy (NilEmpty.string_of_uint d) = true.
Proof. by destruct d. Qed.

(** A character below U+0080 that is no white space starts no white space. *)
Lemma white_space_prefix_ascii (c : ascii) (s : string) :
  (nat_of_ascii c <? 128)%nat = true ->
  (byte_in 9 13 c || Nat.eqb (nat_of_ascii c) 32)%bool = false ->
  white_space_prefix (String c s) = 0%nat.
Proof.
  intros Hc Hw. cbn [white_space_prefix]. cbv zeta. rewrite Hw.
  apply Nat.ltb_lt in Hc.
  assert (forall k, (128 <= k)%nat -> Nat.eqb (nat_of_ascii c) k = false) as Hne.
  { intros k Hk. apply Nat.eqb_neq. lia. }
  destruct s as [|d [|e s]]; [done|..]; by rewrite !Hne by lia.
Qed.

Lemma string_of_uint_no_space (d : Decimal.uint) :
  white_space_prefix (NilEmpty.string_of_uint d) = 0%nat.
Proof. destruct d; cbn [NilEmpty.string_of_uint]; [done|by apply white_space_prefix_ascii..]. Qed.

Lemma string_of_uint_no_radix_prefix (d : Decimal.uint) :
  (String.prefix "0x" (NilEmpty.string_of_uint d)
   || String.prefix "0X" (NilEmpty.string_of_uint d))%bool = false.
Proof. destruct d as [|d|d|d|d|d|d|d|d|d|d]; try done; by destruct d. Qed.

Lemma trimStart_no_space (s : string) : white_space_prefix s = 0%nat -> trimStart s = s.
Proof.
  unfold trimStart. destruct (String.length s); cbn [trimStart_fuel]; [done|].
  by intros ->.
Qed.

Lemma parse_magnitude_string_of_uint (d : Decimal.uint) :
  d <> Decimal.Nil ->
  parse_magnitude (NilEmpty.string_of_uint d) = Some (Z.of_uint d).
Proof.
  intros Hd. unfold parse_magnitude.
  rewrite string_of_uint_no_radix_prefix, decimal_digits_string_of_uint.
  by destruct d.
Qed.

Lemma parseInt_string_of_uint (d : Decimal.uint) :
  d <> Decimal.Nil -> parseInt (NilEmpty.string_of_uint d) = Some (Z.of_uint d).
Proof.
  intros Hd. unfold parseInt.
  rewrite trimStart_no_space by apply string_of_uint_no_space.
  rewrite <- parse_magnitude_string_of_uint by done.
  by destruct d.
Qed.

Lemma to_int_digits (z : Z) :
  exists d, d <> Decimal.Nil
    /\ (Z.to_int z = Decimal.Pos d \/ Z.to_int z = Decimal.Neg d).
Proof.
  destruct z as [|p|p]; cbn [Z.to_int].
  - exists (Decimal.D0 Decimal.Nil). split; [done|by left].
  - exists (Pos.to_uint p). split; [apply DecimalPos.Unsigned.to_uint_nonnil|by left].
  - exists (Pos.to_uint p). split; [apply DecimalPos.Unsigned.to_uint_nonnil|by right].
Qed.

(** A time stamp written by [saveToLocalStorage] is read back by
    [parseInt]. *)
Lemma parseInt_Z_toString (z : Z) : parseInt (Z_toString z) = Some z.
Proof.
  unfold Z_toString. pose proof (DecimalZ.of_to z) as Hz.
  destruct (to_int_digits z) as (d & Hd & [E|E]); rewrite E in Hz |- *;
    cbn [NilEmpty.string_of_int Z.of_int] in *.
  - rewrite parseInt_string_of_uint by done. by rewrite Hz.
  - unfold parseInt. rewrite trimStart_no_space by (by apply white_space_prefix_ascii).
    rewrite parse_magnitude_string_of_uint by done. cbn. by rewrite Hz.
Qed.

Lemma Z_toString_truthy (z : Z) : truthy (Z_toString z) = true.
Proof.
  unfold Z_toString.
  destruct (to_int_digits z) as (d & Hd & [E|E]); rewrite E;
    cbn [NilEmpty.string_of_int]; [by apply string_of_uint_truthy|done].
Qed.

(** ** Objects used as dictionaries *)

Section ObjectFacts.
Context {V : Type}.
Implicit Types (o : list (string * V)) (k : string) (v : V).

Lemma obj_get_replace_eq k v o :
  is_Some (obj_get k o) -> obj_get k (obj_replace k v o) = Some v.
Proof.
  unfold obj_get. induction o as [|[k' v'] o IH]; cbn [table_get obj_replace].
  - by intros [? ?].
  - destruct (String.eqb k k') eqn:E; cbn [table_get].
    + by rewrite String.eqb_refl.
    + rewrite E. exact IH.
Qed.

Lemma obj_get_replace_ne k k' v o :
  k <> k' -> obj_get k' (obj_replace k v o) = obj_get k' o.
Proof.
  intros Hne. unfold obj_get.
  induction o as [|[k0 v0] o IH]; cbn [table_get obj_replace]; [done|].
  destruct (String.eqb_spec k k0) as [->|Hk]; cbn [table_get].
  - by destruct (String.eqb_spec k' k0) as [->|?].
  - by rewrite IH.
Qed.

Lemma obj_get_insert_index_eq n k v o :
  obj_get k o = None -> obj_get k (obj_insert_index n k v o) = Some v.
Proof.
  unfold obj_get. induction o as [|[k' v'] o IH]; cbn [table_get obj_insert_index].
  - by rewrite String.eqb_refl.
  - destruct (String.eqb k k') eqn:E; [done|]. intros Ho.
    destruct (array_index k') as [n'|]; [destruct (n <? n')%N|];
      cbn [table_get]; rewrite ?String.eqb_refl, ?E; auto.
Qed.

Lemma obj_get_insert_index_ne n k k' v o :
  k <> k' -> obj_get k' (obj_insert_index n k v o) = obj_get k' o.
Proof.
  intros Hne. apply String.eqb_neq in Hne. rewrite String.eqb_sym in Hne.
  unfold obj_get.
  induction o as [|[k0 v0] o IH]; cbn [table_get obj_insert_index].
  - by rewrite Hne.
  - destruct (array_index k0) as [n'|]; [destruct (n <? n')%N|];
      cbn [table_get]; rewrite ?Hne, ?IH; done.
Qed.

Lemma obj_get_app_eq k v o :
  obj_get k o = None -> obj_get k (o ++ [(k, v)]) = Some v.
Proof.
  unfold obj_get. induction o as [|[k' v'] o IH]; cbn [table_get app].
  - by rewrite String.eqb_refl.
  - by destruct (String.eqb k k').
Qed.

Lemma obj_get_app_ne k k' v o :
  k <> k' -> obj_get k' (o ++ [(k, v)]) = obj_get k' o.
Proof.
  intros Hne. apply String.eqb_neq in Hne. rewrite String.eqb_sym in Hne.
  unfold obj_get. induction o as [|[k0 v0] o IH]; cbn [table_get app].
  - by rewrite Hne.
  - by rewrite IH.
Qed.

(** Reading a property after assigning it. *)
Lemma obj_get_set_eq k v o : obj_get k (obj_set k v o) = Some v.
Proof.
  unfold obj_set. destruct (obj_get k o) eqn:E.
  - apply obj_get_replace_eq. by rewrite E.
  - destruct (array_index k); [by apply obj_get_insert_index_eq|by apply obj_get_app_eq].
Qed.

(** Assigning a property leaves the others as they are. *)
Lemma obj_get_set_ne k k' v o : k <> k' -> obj_get k' (obj_set k v o) = obj_get k' o.
Proof.
  intros Hne. unfold obj_set. destruct (obj_get k o).
  - by apply obj_get_replace_ne.
  - destruct (array_index k); [by apply obj_get_insert_index_ne|by apply obj_get_app_ne].
Qed.

Lemma obj_replace_same k v o : obj_get k o = Some v -> obj_replace k v o = o.
Proof.
  unfold obj_get. induction o as [|[k' v'] o IH]; cbn [table_get obj_replace]; [done|].
  destruct (String.eqb_spec k k') as [->|Hne].
  - by intros [= ->].
  - intros Ho. by rewrite IH.
Qed.

(** Assigning the value a property has changes nothing. *)
Lemma obj_set_same k v o : obj_get k o = Some v -> obj_set k v o = o.
Proof. intros Ho. unfold obj_set. rewrite Ho. by apply obj_replace_same. Qed.

Lemma obj_get_keys k o : is_Some (obj_get k o) <-> k ∈ obj_keys o.
Proof.
  unfold obj_get, obj_keys. induction o as [|[k' v'] o IH]; cbn [table_get map fst].
  - split; [by intros [? ?]|by intros ?%elem_of_nil].
  - rewrite elem_of_cons. destruct (String.eqb_spec k k') as [->|Hne].
    + split; [by left|by eexists].
    + rewrite IH. split; [by right|by intros [?|?]].
Qed.

End ObjectFacts.

(** ** The cache operations, run *)

Section CacheFacts.
Context {number : Type} {platform : Platform number}.
Implicit Types (s : State number) (ls : gmap string string)
  (o : list (string * list (Recipe number))).

Lemma set_localStorage_id s : set_localStorage (localStorage s) s = s.
Proof. by destruct s. Qed.

Lemma set_inMemoryCache_id s : set_inMemoryCache (inMemoryCache s) s = s.
Proof. by destruct s. Qed.

Lemma saveEntry_run (c : string) s :
  saveEntry c s =
  (Ok tt,
   set_localStorage (<[CACHE_PREFIX +:+ c := entryText (inMemoryCache s) c]> (localStorage s)) s).
Proof. reflexivity. Qed.

Lemma removeEntry_run (c : string) s :
  removeEntry c s = (Ok tt, set_localStorage (delete (CACHE_PREFIX +:+ c) (localStorage s)) s).
Proof. reflexivity. Qed.

Lemma forEach_saveEntry (l : list string) s :
  forEach saveEntry l s =
  (Ok tt,
   set_localStorage
     (fold_left (fun ls c => <[CACHE_PREFIX +:+ c := entryText (inMemoryCache s) c]> ls)
        l (localStorage s)) s).
Proof.
  revert s. induction l as [|c l IH]; intros s; cbn [forEach fold_left].
  - run. by rewrite set_localStorage_id.
  - unfold bind at 1. rewrite saveEntry_run, IH. by run.
Qed.

(** [saveToLocalStorage] never throws; it reads the clock once and writes
    the time stamp, the list of names and one entry per cuisine. *)
Lemma saveToLocalStorage_run s :
  saveToLocalStorage s =
  (Ok tt,
   set_localStorage
     (savedStorage (Date_getTime (clockReads s)) (inMemoryCache s) (localStorage s))
     (set_clockReads (S (clockReads s)) s)).
Proof.
  unfold saveToLocalStorage. run. rewrite forEach_saveEntry. by run.
Qed.

Lemma addRecipes_run (cuisine : string) (recipes : list (Recipe number)) s :
  addRecipes cuisine recipes s =
  (Ok tt,
   set_localStorage
     (savedStorage (Date_getTime (clockReads s))
        (obj_set cuisine recipes (inMemoryCache s)) (localStorage s))
     (set_clockReads (S (clockReads s))
        (set_inMemoryCache (obj_set cuisine recipes (inMemoryCache s)) s))).
Proof.
  unfold addRecipes. run. rewrite saveToLocalStorage_run. by run.
Qed.

Lemma forEach_removeEntry (l : list string) s :
  forEach removeEntry l s =
  (Ok tt,
   set_localStorage
     (fold_left (fun ls c => delete (CACHE_PREFIX +:+ c) ls) l (localStorage s)) s).
Proof.
  revert s. induction l as [|c l IH]; intros s; cbn [forEach fold_left].
  - run. by rewrite set_localStorage_id.
  - unfold bind at 1. rewrite removeEntry_run, IH. by run.
Qed.

(** [clearCache] when the persisted list can be read. *)
Lemma clearCache_run s (names : list string) :
  persistedNames (localStorage s) = Some names ->
  clearCache s =
  (Ok tt, set_localStorage (clearedStorage names (localStorage s)) (set_inMemoryCache [] s)).
Proof.
  unfold persistedNames, clearCache. intros Hn. run. rewrite Hn.
  rewrite forEach_removeEntry. by run.
Qed.

(** [clearCache] when reading the persisted list throws: the cache object
    is reset, the store is not touched and the exception leaves
    [clearCache]. *)
Lemma clearCache_throw s :
  persistedNames (localStorage s) = None ->
  clearCache s = (Throw "SyntaxError", set_inMemoryCache [] s).
Proof.
  unfold persistedNames, clearCache. intros Hn. run. by rewrite Hn.
Qed.

Lemma loadEntry_run (c : string) s :
  loadEntry c s =
  match entryStatus (localStorage s) c with
  | EntryBroken => (Throw "SyntaxError", s)
  | _ => (Ok tt, set_inMemoryCache (loadStep (localStorage s) (inMemoryCache s) c) s)
  end.
Proof.
  unfold loadEntry, loadStep, entryStatus. run.
  destruct (localStorage s !! (CACHE_PREFIX +:+ c)) as [text|] eqn:E;
    cbn [truthy_opt the_string]; [|by rewrite set_inMemoryCache_id].
  destruct (truthy text); [|by rewrite set_inMemoryCache_id].
  by destruct (JSON_parse_recipes text).
Qed.

(** The loading loop when no entry is broken. *)
Lemma forEach_loadEntry_ok (names : list string) s :
  (forall c, c ∈ names -> isBroken (localStorage s) c = false) ->
  forEach loadEntry names s =
  (Ok tt,
   set_inMemoryCache (fold_left (loadStep (localStorage s)) names (inMemoryCache s)) s).
Proof.
  revert s. induction names as [|c names IH]; intros s Hok; cbn [forEach fold_left].
  - run. by rewrite set_inMemoryCache_id.
  - unfold bind at 1. rewrite loadEntry_run.
    pose proof (Hok c ltac:(left)) as Hc. unfold isBroken in Hc.
    assert (forall c', c' ∈ names -> isBroken (localStorage s) c' = false) as Hrest.
    { intros c' Hc'. apply Hok. by right. }
    destruct (entryStatus (localStorage s) c) eqn:E; [|done|];
      rewrite IH by (by run); by run.
Qed.


Lemma loadFromLocalStorage_head s :
  loadFromLocalStorage s =
  let s1 := set_clockReads (S (clockReads s)) s in
  let attempt :=
    if freshAt (Date_getTime (clockReads s)) (localStorage s) then
      match persistedNames (localStorage s) with
      | Some names => forEach loadEntry names s1
      | None => (Throw "SyntaxError", s1)
      end
    else clearCache s1 in
  match attempt with
  | (Ok a, s') => (Ok a, s')
  | (Throw e, s') => clearCache s'
  end.
Proof.
  unfold loadFromLocalStorage, freshAt, persistedNames. run.
  destruct (truthy_opt (localStorage s !! CACHE_TIMESTAMP)
            && match parseInt (the_string (localStorage s !! CACHE_TIMESTAMP)) with
               | Some t => (Date_getTime (clockReads s) - t <? CACHE_EXPIRY)%Z
               | None => false
               end)%bool; run; [|done].
  by destruct (JSON_parse_names (or_else (localStorage s !! CACHE_CUISINES) "[]")).
Qed.

(** Construction over a fresh store whose entries all load or are
    missing. *)
Lemma RecipeCache_new_loaded s (names : list string) :
  freshAt (Date_getTime (clockReads s)) (localStorage s) = true ->
  persistedNames (localStorage s) = Some names ->
  (forall c, c ∈ names -> isBroken (localStorage s) c = false) ->
  RecipeCache_new s =
  (Ok tt,
   set_inMemoryCache (loadedCache (localStorage s) names)
     (set_clockReads (S (clockReads s)) s)).
Proof.
  intros Hf Hn Hok. unfold RecipeCache_new. unfold bind at 1. run.
  rewrite loadFromLocalStorage_head. run. rewrite Hf, Hn.
  rewrite forEach_loadEntry_ok by (by run). by run.
Qed.


(** Construction over a store that is not fresh. *)
Lemma RecipeCache_new_cold s (names : list string) :
  freshAt (Date_getTime (clockReads s)) (localStorage s) = false ->
  persistedNames (localStorage s) = Some names ->
  RecipeCache_new s =
  (Ok tt,
   set_localStorage (clearedStorage names (localStorage s))
     (set_inMemoryCache [] (set_clockReads (S (clockReads s)) s))).
Proof.
  intros Hf Hn. unfold RecipeCache_new. unfold bind at 1. run.
  rewrite loadFromLocalStorage_head. run. rewrite Hf.
  rewrite (clearCache_run _ names) by (by run). by run.
Qed.

(** *** The store after [clearCache] *)

Lemma fold_delete_lookup (names : list string) ls (k : string) :
  fold_left (fun ls c => delete (CACHE_PREFIX +:+ c) ls) names ls !! k =
  if bool_decide (k ∈ map (String.append CACHE_PREFIX) names) then None else ls !! k.
Proof.
  revert ls. induction names as [|c names IH]; intros ls; cbn [fold_left map].
  - by rewrite bool_decide_eq_false_2 by apply not_elem_of_nil.
  - rewrite IH. case_bool_decide as H1; case_bool_decide as H2; try done.
    + destruct H2. by right.
    + apply elem_of_cons in H2 as [->|H2]; [apply lookup_delete_eq|done].
    + rewrite lookup_delete_ne; [done|]. intros <-. destruct H2. left.
Qed.

Lemma clearedStorage_removed (names : list string) ls (k : string) :
  k = CACHE_TIMESTAMP \/ k = CACHE_CUISINES
  \/ (exists c, c ∈ names /\ k = CACHE_PREFIX +:+ c) ->
  clearedStorage names ls !! k = None.
Proof.
  intros Hk. unfold clearedStorage.
  destruct (decide (k = CACHE_TIMESTAMP)) as [->|H1]; [apply lookup_delete_eq|].
  rewrite lookup_delete_ne by done.
  destruct (decide (k = CACHE_CUISINES)) as [->|H2]; [apply lookup_delete_eq|].
  rewrite lookup_delete_ne by done.
  rewrite fold_delete_lookup. rewrite bool_decide_eq_true_2; [done|].
  destruct Hk as [?|[?|(c & Hc & ->)]]; [done..|].
  apply list_elem_of_fmap. by exists c.
Qed.

Lemma clearedStorage_kept (names : list string) ls (k : string) :
  k <> CACHE_TIMESTAMP -> k <> CACHE_CUISINES ->
  (forall c, c ∈ names -> k <> CACHE_PREFIX +:+ c) ->
  clearedStorage names ls !! k = ls !! k.
Proof.
  intros H1 H2 H3. unfold clearedStorage.
  rewrite !lookup_delete_ne by done. rewrite fold_delete_lookup.
  rewrite bool_decide_eq_false_2; [done|].
  intros (c & -> & Hc)%list_elem_of_fmap. by apply (H3 c).
Qed.

(** *** The cache object after loading *)



End CacheFacts.

(** ** The loop of [initializeCache] on the cache object *)

Section InitializeFacts.
Context {number : Type}.
Implicit Types (o : list (string * list (Recipe number)))
  (e : string * MockValue number) (es : list (string * MockValue number)).

Lemma initializeEntryCache_other o e (c : string) :
  fst e <> c -> obj_get c (initializeEntryCache o e) = obj_get c o.
Proof.
  intros Hne. unfold initializeEntryCache.
  destruct (obj_get (fst e) o) as [[|r l]|], (snd e); try done;
    by apply obj_get_set_ne.
Qed.

Lemma initializeEntryCache_cached o e (c : string) :
  cachedIn c o -> obj_get c (initializeEntryCache o e) = obj_get c o.
Proof.
  intros (r & l & Hc). destruct (decide (fst e = c)) as [<-|Hne].
  - unfold initializeEntryCache. by rewrite Hc.
  - by apply initializeEntryCache_other.
Qed.

(** A cuisine that is cached stays as it is through the loop. *)
Lemma fold_initialize_cached es o (c : string) :
  cachedIn c o -> obj_get c (fold_left initializeEntryCache es o) = obj_get c o.
Proof.
  revert o. induction es as [|e es IH]; intros o Hc; cbn [fold_left]; [done|].
  rewrite IH.
  - by apply initializeEntryCache_cached.
  - destruct Hc as (r & l & Hc). exists r, l.
    rewrite initializeEntryCache_cached; [done|by exists r, l].
Qed.

Lemma fold_initialize_cached_stays es o (c : string) :
  cachedIn c o -> cachedIn c (fold_left initializeEntryCache es o).
Proof.
  intros Hc. pose proof Hc as (r & l & Ho). exists r, l.
  by rewrite fold_initialize_cached.
Qed.

Lemma initializeEntryCache_empty o e (c : string) :
  obj_get c o = Some [] ->
  cachedIn c (initializeEntryCache o e) \/ obj_get c (initializeEntryCache o e) = Some [].
Proof.
  intros Hc. destruct (decide (fst e = c)) as [<-|Hne].
  - unfold initializeEntryCache. rewrite Hc.
    destruct (snd e) as [[|r l]|]; [right|left|by right].
    + apply obj_get_set_eq.
    + exists r, l. apply obj_get_set_eq.
  - right. by rewrite initializeEntryCache_other.
Qed.

Lemma fold_initialize_empty es o (c : string) :
  obj_get c o = Some [] ->
  cachedIn c (fold_left initializeEntryCache es o)
  \/ obj_get c (fold_left initializeEntryCache es o) = Some [].
Proof.
  revert o. induction es as [|e es IH]; intros o Hc; cbn [fold_left]; [by right|].
  destruct (initializeEntryCache_empty o e c Hc) as [H|H].
  - left. by apply fold_initialize_cached_stays.
  - by apply IH.
Qed.

(** After the loop, a cuisine that had an array entry is cached, or it
    holds an empty sequence and its entry was empty. *)
Lemma fold_initialize_entry es o (c : string) (l : list (Recipe number)) :
  (c, MockArray l) ∈ es ->
  cachedIn c (fold_left initializeEntryCache es o)
  \/ (obj_get c (fold_left initializeEntryCache es o) = Some [] /\ l = []).
Proof.
  revert o. induction es as [|e es IH]; intros o Hin; [by apply elem_of_nil in Hin|].
  cbn [fold_left]. apply elem_of_cons in Hin as [<-|Hin]; [|by apply IH].
  set (o1 := initializeEntryCache o (c, MockArray l)).
  assert (cachedIn c o1 \/ (obj_get c o1 = Some [] /\ l = [])) as [H|[H ->]].
  { subst o1. unfold initializeEntryCache. cbn [fst snd].
    destruct (obj_get c o) as [[|r0 l0]|] eqn:Hc.
    - destruct l as [|r l].
      + right. split; [apply obj_get_set_eq|done].
      + left. exists r, l. apply obj_get_set_eq.
    - left. by exists r0, l0.
    - destruct l as [|r l].
      + right. split; [apply obj_get_set_eq|done].
      + left. exists r, l. apply obj_get_set_eq. }
  - left. by apply fold_initialize_cached_stays.
  - destruct (fold_initialize_empty es o1 c H); [by left|right; by split].
Qed.

Lemma fold_left_fixed {A B : Type} (f : A -> B -> A) (l : list B) (a : A) :
  (forall b, b ∈ l -> f a b = a) -> fold_left f l a = a.
Proof.
  induction l as [|b l IH]; intros H; cbn [fold_left]; [done|].
  rewrite (H b) by left. apply IH. intros b' Hb'. apply H. by right.
Qed.

Lemma initializeEntryCache_fixed o (c : string) (v : MockValue number) :
  v = MockNotArray \/ cachedIn c o \/ (obj_get c o = Some [] /\ v = MockArray []) ->
  initializeEntryCache o (c, v) = o.
Proof.
  unfold initializeEntryCache. cbn [fst snd].
  intros [->|[(r & l & ->)|[H ->]]]; [by repeat case_match|done|].
  rewrite H. by apply obj_set_same.
Qed.

(** Running the loop again over the same entries changes nothing in the
    cache object. *)
Lemma fold_initialize_idempotent es o :
  fold_left initializeEntryCache es (fold_left initializeEntryCache es o)
  = fold_left initializeEntryCache es o.
Proof.
  apply fold_left_fixed. intros [c [l|]] Hin; apply initializeEntryCache_fixed.
  - right. destruct (fold_initialize_entry es o c l Hin) as [H|[H ->]]; [by left|by right].
  - by left.
Qed.

End InitializeFacts.

(** ** [initializeCache] and [getRecipes], run *)

Section RetrievalFacts.
Context {number : Type} {platform : Platform number}.
Implicit Types (s : State number) (e : string * MockValue number)
  (es : list (string * MockValue number)).

Lemma hasCuisine_cachedIn (c : string) s :
  hasCuisine c s = true <-> cachedIn c (inMemoryCache s).
Proof.
  unfold hasCuisine, cachedIn. destruct (obj_get c (inMemoryCache s)) as [[|r l]|].
  - split; [done|by intros (? & ? & ?)].
  - split; [by exists r, l|done].
  - split; [done|by intros (? & ? & ?)].
Qed.

Lemma getRecipesForCuisine_addRecipes (C : string) (R : list (Recipe number)) s :
  getRecipesForCuisine C (snd (addRecipes C R s)) = R.
Proof.
  rewrite addRecipes_run. unfold getRecipesForCuisine.
  cbn [snd inMemoryCache set_localStorage set_clockReads set_inMemoryCache].
  by rewrite obj_get_set_eq.
Qed.

Lemma hasCuisine_addRecipes (C : string) (R : list (Recipe number)) s :
  R <> [] -> hasCuisine C (snd (addRecipes C R s)) = true.
Proof.
  intros HR. rewrite addRecipes_run. unfold hasCuisine.
  cbn [snd inMemoryCache set_localStorage set_clockReads set_inMemoryCache].
  rewrite obj_get_set_eq. by destruct R.
Qed.

Lemma initializeEntry_run e s :
  initializeEntry e s =
  if hasCuisine (fst e) s then (Ok tt, s)
  else match snd e with
       | MockArray recipes => addRecipes (fst e) recipes s
       | MockNotArray => (Ok tt, s)
       end.
Proof.
  destruct e as [c v]. unfold initializeEntry. cbn [fst snd].
  unfold bind, gets, ret. by destruct (hasCuisine c s), v.
Qed.

Lemma initializeEntry_cache e s :
  fst (initializeEntry e s) = Ok tt
  /\ inMemoryCache (snd (initializeEntry e s)) = initializeEntryCache (inMemoryCache s) e
  /\ calls (snd (initializeEntry e s)) = calls s
  /\ usingMockData (snd (initializeEntry e s)) = usingMockData s.
Proof.
  rewrite initializeEntry_run. unfold initializeEntryCache, hasCuisine.
  destruct (obj_get (fst e) (inMemoryCache s)) as [[|r l]|], (snd e) as [recipes|];
    try done; by rewrite addRecipes_run.
Qed.

Lemma forEach_initializeEntry es s :
  fst (forEach initializeEntry es s) = Ok tt
  /\ inMemoryCache (snd (forEach initializeEntry es s))
     = fold_left initializeEntryCache es (inMemoryCache s)
  /\ calls (snd (forEach initializeEntry es s)) = calls s
  /\ usingMockData (snd (forEach initializeEntry es s)) = usingMockData s.
Proof.
  revert s. induction es as [|e es IH]; intros s; cbn [forEach fold_left]; [done|].
  unfold bind. destruct (initializeEntry_cache e s) as (H1 & H2 & H3 & H4).
  destruct (initializeEntry e s) as [[[]|err] s1]; cbn [fst snd] in *; [|done].
  rewrite <- H2, <- H3, <- H4. apply IH.
Qed.

(** The loop does nothing when every entry is of a cached cuisine or is
    not an array. *)
Lemma forEach_initializeEntry_skip es s :
  (forall e, e ∈ es -> hasCuisine (fst e) s = true \/ snd e = MockNotArray) ->
  forEach initializeEntry es s = (Ok tt, s).
Proof.
  induction es as [|e es IH]; intros H; cbn [forEach]; [done|].
  unfold bind. rewrite initializeEntry_run.
  assert (forEach initializeEntry es s = (Ok tt, s)) as Hrest.
  { apply IH. intros e' He'. apply H. by right. }
  destruct (H e ltac:(left)) as [->| ->]; [done|]. by destruct (hasCuisine (fst e) s).
Qed.

Lemma initializeCache_run (cuisines : list string) s :
  initializeCache cuisines s =
  let s1 := set_calls (calls s ++ [CallGetAllMockRecipes]) (set_usingMockData true s) in
  match getAllMockRecipes (calls s) with
  | Ok entries => (Ok true, snd (forEach initializeEntry entries s1))
  | Throw _ => (Ok false, s1)
  end.
Proof.
  unfold initializeCache, try_catch, bind, modify, ret, call_getAllMockRecipes.
  cbn [calls set_usingMockData]. cbv zeta.
  destruct (getAllMockRecipes (calls s)) as [entries|err]; [|done].
  destruct (forEach_initializeEntry entries
              (set_calls (calls s ++ [CallGetAllMockRecipes]) (set_usingMockData true s)))
    as (H & _).
  by destruct (forEach initializeEntry entries _) as [[[]|err] s']; cbn [fst] in H.
Qed.

Lemma getRecipes_run (C : string) (forceRefresh : bool) s :
  getRecipes (Some C) forceRefresh s =
  if truthy C then
    if (hasCuisine C s && negb forceRefresh)%bool then (Ok (getRecipesForCuisine C s), s)
    else
      let s1 := set_calls (calls s ++ [CallGetMockRecipesForCuisine C]) s in
      match getMockRecipesForCuisine (calls s) C with
      | Ok mockRecipes =>
          (Ok mockRecipes,
           if (0 <? length mockRecipes)%nat then snd (addRecipes C mockRecipes s1) else s1)
      | Throw err => (Throw err, s1)
      end
  else (Ok (getAllRecipes s), s).
Proof.
  unfold getRecipes. cbn [truthy_opt the_string]. destruct (truthy C); [|done].
  cbn [negb]. unfold bind, gets, ret, call_getMockRecipesForCuisine.
  destruct (hasCuisine C s && negb forceRefresh)%bool; [done|].
  destruct (getMockRecipesForCuisine (calls s) C) as [mockRecipes|err]; [|done].
  destruct (0 <? length mockRecipes)%nat; [|done]. by rewrite addRecipes_run.
Qed.

End RetrievalFacts.

(** * The claims *)

Section FilterClaims.
Context {number : Type}.


End FilterClaims.



Section CacheClaims.
Context {number : Type} {platform : Platform number}.
Implicit Types (s : State number) (ls : gmap string string).



Lemma freshAt_written (now T : Z) ls :
  ls !! CACHE_TIMESTAMP = Some (Z_toString T) ->
  freshAt now ls = (now - T <? CACHE_EXPIRY)%Z.
Proof.
  intros Hts. unfold freshAt. rewrite Hts. cbn [truthy_opt the_string].
  by rewrite Z_toString_truthy, parseInt_Z_toString.
Qed.

Lemma freshAt_unreadable (now : Z) ls :
  ls !! CACHE_TIMESTAMP = None
  \/ (exists text, ls !! CACHE_TIMESTAMP = Some text /\ parseInt text = None) ->
  freshAt now ls = false.
Proof.
  unfold freshAt. intros [->|(text & -> & Hp)]; [done|].
  cbn [the_string]. rewrite Hp. apply andb_false_r.
Qed.

Lemma persistedNames_written (l : list string) ls :
  namesRoundTrip l ->
  ls !! CACHE_CUISINES = Some (JSON_stringify_names l) ->
  persistedNames ls = Some l.
Proof.
  intros [Ht Hp] Hl. unfold persistedNames. rewrite Hl. cbn [or_else]. by rewrite Ht.
Qed.

Lemma entryStatus_written (c : string) (l : list (Recipe number)) ls :
  recipesRoundTrip l ->
  ls !! (CACHE_PREFIX +:+ c) = Some (JSON_stringify_recipes l) ->
  entryStatus ls c = EntryLoaded l.
Proof.
  intros [Ht Hp] Hl. unfold entryStatus. by rewrite Hl, Ht, Hp.
Qed.

(** The store [saveToLocalStorage] writes for a cache that holds one
    cuisine. *)
Lemma savedStorage_single (now : Z) (c : string) (l : list (Recipe number)) ls :
  savedStorage now [(c, l)] ls =
  <[CACHE_PREFIX +:+ c := JSON_stringify_recipes l]>
    (<[CACHE_CUISINES := JSON_stringify_names [c]]>
       (<[CACHE_TIMESTAMP := Z_toString now]> ls)).
Proof.
  unfold savedStorage, entryText, obj_get, obj_keys.
  cbn [map fst fold_left table_get]. by rewrite String.eqb_refl.
Qed.

(** C3. Let a store that holds [{"Italian": [r1, r2]}] be persisted at time
    [T], on a platform whose [JSON] reads back the two arrays written.
    A cache constructed over the persisted store at [T] + 1 hour holds
    [r1, r2]: [getAllRecipes()] is [[r1; r2]].  A cache constructed at
    [T] + 25 hours, or over the same store with the time stamp removed or
    replaced by a text [parseInt] does not read, holds nothing
    ([getAllRecipes()] is [[]]) and the time stamp, the list of names and
    the entry of [Italian] are removed from the store. *)
Theorem persistence_round_trip (s0 : State number) (T : Z) (r1 r2 : Recipe number) :
  inMemoryCache s0 = [("Italian", [r1; r2])] ->
  Date_getTime (clockReads s0) = T ->
  namesRoundTrip ["Italian"] ->
  recipesRoundTrip [r1; r2] ->
  let persisted := localStorage (snd (saveToLocalStorage s0)) in
  (forall s : State number,
     localStorage s = persisted ->
     Date_getTime (clockReads s) = (T + 1 * 60 * 60 * 1000)%Z ->
     fst (RecipeCache_new s) = Ok tt
     /\ getAllRecipes (snd (RecipeCache_new s)) = [r1; r2]
     /\ localStorage (snd (RecipeCache_new s)) = persisted)
  /\ (forall s : State number,
        (localStorage s = persisted
         /\ Date_getTime (clockReads s) = (T + 25 * 60 * 60 * 1000)%Z)
        \/ localStorage s = delete CACHE_TIMESTAMP persisted
        \/ (exists text, parseInt text = None
                         /\ localStorage s = <[CACHE_TIMESTAMP := text]> persisted) ->
        let s' := snd (RecipeCache_new s) in
        fst (RecipeCache_new s) = Ok tt
        /\ getAllRecipes s' = []
        /\ localStorage s' !! CACHE_TIMESTAMP = None
        /\ localStorage s' !! CACHE_CUISINES = None
        /\ localStorage s' !! (CACHE_PREFIX +:+ "Italian") = None).
Proof.
  intros Ho HT Hnames Hrecipes persisted.
  assert (persisted =
          <[CACHE_PREFIX +:+ "Italian" := JSON_stringify_recipes [r1; r2]]>
            (<[CACHE_CUISINES := JSON_stringify_names ["Italian"]]>
               (<[CACHE_TIMESTAMP := Z_toString T]> (localStorage s0)))) as Hp.
  { subst persisted. rewrite saveToLocalStorage_run. cbn [snd localStorage set_localStorage].
    by rewrite Ho, HT, savedStorage_single. }
  assert (persisted !! CACHE_TIMESTAMP = Some (Z_toString T)) as Hts.
  { rewrite Hp. rewrite !lookup_insert_ne by done. apply lookup_insert_eq. }
  assert (persisted !! CACHE_CUISINES = Some (JSON_stringify_names ["Italian"])) as Hlist.
  { rewrite Hp. rewrite lookup_insert_ne by done. apply lookup_insert_eq. }
  assert (persisted !! (CACHE_PREFIX +:+ "Italian")
          = Some (JSON_stringify_recipes [r1; r2])) as Hentry.
  { rewrite Hp. apply lookup_insert_eq. }
  clearbody persisted. split.
  - intros s Hs Hnow.
    assert (forall c, c ∈ ["Italian"] -> isBroken (localStorage s) c = false) as Hok.
    { intros c ->%list_elem_of_singleton. unfold isBroken. rewrite Hs.
      by rewrite (entryStatus_written _ _ _ Hrecipes Hentry). }
    rewrite (RecipeCache_new_loaded s ["Italian"]); [| |by rewrite Hs; eapply persistedNames_written|done].
    + cbn [fst snd localStorage set_inMemoryCache set_clockReads]. split; [done|].
      split; [|done]. unfold getAllRecipes. cbn [inMemoryCache set_inMemoryCache].
      unfold loadedCache. cbn [fold_left]. unfold loadStep. rewrite Hs.
      rewrite (entryStatus_written _ _ _ Hrecipes Hentry).
      reflexivity.
    + rewrite Hs, (freshAt_written _ T) by done. rewrite Hnow.
      apply Z.ltb_lt. unfold CACHE_EXPIRY. lia.
  - intros s Hcases s'. subst s'.
    assert (freshAt (Date_getTime (clockReads s)) (localStorage s) = false
            /\ persistedNames (localStorage s) = Some ["Italian"]) as [Hcold Hn].
    { destruct Hcases as [[Hs Hnow]|[Hs|(text & Htext & Hs)]]; rewrite Hs.
      - split; [|by eapply persistedNames_written].
        rewrite (freshAt_written _ T) by done. rewrite Hnow.
        apply Z.ltb_ge. unfold CACHE_EXPIRY. lia.
      - split.
        + apply freshAt_unreadable. left. apply lookup_delete_eq.
        + eapply persistedNames_written; [done|]. by rewrite lookup_delete_ne.
      - split.
        + apply freshAt_unreadable. right. exists text. by rewrite lookup_insert_eq.
        + eapply persistedNames_written; [done|]. by rewrite lookup_insert_ne. }
    rewrite (RecipeCache_new_cold s ["Italian"]) by done.
    cbn [fst snd localStorage set_localStorage]. split; [done|]. split; [done|].
    split; [apply clearedStorage_removed; by left|].
    split; [apply clearedStorage_removed; right; by left|].
    apply clearedStorage_removed. right; right. exists "Italian". split; [left|done].
Qed.

(** C5. Let the collaborator answer the fetch of [C] with a non-empty
    sequence.  Then [getRecipes(C)] returns normally, and a second
    [getRecipes(C)] with [forceRefresh] false returns the same sequence and
    leaves the whole state as it is, the record of calls to the
    collaborator included: nothing is fetched.  When a cuisine is given,
    the sequence is the one the cache holds for [C], and it is the fetched
    one when the first call fetched. *)
Theorem getRecipes_second_call (s : State number) (C : string) (forceRefresh : bool)
    (R0 : list (Recipe number)) :
  getMockRecipesForCuisine (calls s) C = Ok R0 ->
  R0 <> [] ->
  let first := getRecipes (Some C) forceRefresh s in
  exists R : list (Recipe number),
    fst first = Ok R
    /\ getRecipes (Some C) false (snd first) = (Ok R, snd first)
    /\ (truthy C = true ->
          hasCuisine C (snd first) = true /\ getRecipesForCuisine C (snd first) = R)
    /\ (truthy C = true -> (hasCuisine C s && negb forceRefresh)%bool = false ->
          R = R0
          /\ calls (snd first) = (calls s ++ [CallGetMockRecipesForCuisine C])%list).
Proof.
  intros Hfetch HR0 first. subst first. rewrite getRecipes_run.
  destruct (truthy C) eqn:HC.
  - destruct (hasCuisine C s && negb forceRefresh)%bool eqn:Hhit.
    + apply andb_prop in Hhit as [Hhas _].
      exists (getRecipesForCuisine C s). cbn [fst snd].
      rewrite getRecipes_run, HC, Hhas. by repeat split.
    + cbv zeta. rewrite Hfetch.
      assert ((0 <? length R0)%nat = true) as -> by (by destruct R0).
      exists R0. cbn [fst snd]. rewrite getRecipes_run, HC.
      rewrite hasCuisine_addRecipes, getRecipesForCuisine_addRecipes by done.
      repeat split; try done. by rewrite addRecipes_run.
  - exists (getAllRecipes s). cbn [fst snd]. rewrite getRecipes_run, HC.
    by repeat split.
Qed.

(** C6. Let [C] be a cuisine that is not cached, and let the collaborator
    answer the fetch of [C] with the empty sequence.  Then [getRecipes(C)]
    returns the empty sequence and the state after it is the state before
    with the fetch recorded: the cache object, [hasCuisine(C)], the store
    (time stamp included) and the number of clock readings are as
    before. *)
Theorem getRecipes_empty_result (s : State number) (C : string) (forceRefresh : bool) :
  truthy C = true ->
  hasCuisine C s = false ->
  getMockRecipesForCuisine (calls s) C = Ok [] ->
  let s' := snd (getRecipes (Some C) forceRefresh s) in
  fst (getRecipes (Some C) forceRefresh s) = Ok []
  /\ s' = set_calls (calls s ++ [CallGetMockRecipesForCuisine C]) s
  /\ inMemoryCache s' = inMemoryCache s
  /\ hasCuisine C s' = false
  /\ localStorage s' = localStorage s
  /\ clockReads s' = clockReads s.
Proof.
  intros HC Hhas Hfetch s'. subst s'.
  rewrite getRecipes_run, HC, Hhas, Hfetch. by cbn.
Qed.

(** C7 (amended). Every call of [initializeCache] asks the collaborator for
    all collections once, and leaves a cuisine that is cached
    ([hasCuisine] true) with the sequence it has.  When the collaborator
    gives the same collections to two calls in sequence, both return true
    and the second leaves the cache object as the first left it; when
    moreover no collection is an empty array, the second call writes
    nothing to the store and does not read the clock, so that no
    [addRecipes] is repeated. *)
Theorem initializeCache_twice (cuisines cuisines' : list string) (s : State number)
    (entries : list (string * MockValue number)) :
  getAllMockRecipes (calls s) = Ok entries ->
  let s1 := snd (initializeCache cuisines s) in
  getAllMockRecipes (calls s1) = Ok entries ->
  let s2 := snd (initializeCache cuisines' s1) in
  fst (initializeCache cuisines s) = Ok true
  /\ fst (initializeCache cuisines' s1) = Ok true
  /\ calls s1 = (calls s ++ [CallGetAllMockRecipes])%list
  /\ calls s2 = (calls s1 ++ [CallGetAllMockRecipes])%list
  /\ inMemoryCache s2 = inMemoryCache s1
  /\ ((forall c l, (c, MockArray l) ∈ entries -> l <> []) ->
        localStorage s2 = localStorage s1 /\ clockReads s2 = clockReads s1)
  /\ (forall (s0 : State number) (c : string), hasCuisine c s0 = true ->
        getRecipesForCuisine c (snd (initializeCache cuisines s0))
        = getRecipesForCuisine c s0).
Proof.
  intros H1 s1 H2 s2.
  assert (forall s0,
            inMemoryCache (snd (initializeCache cuisines s0))
            = match getAllMockRecipes (calls s0) with
              | Ok es => fold_left initializeEntryCache es (inMemoryCache s0)
              | Throw _ => inMemoryCache s0
              end) as Hcache.
  { intros s0. rewrite initializeCache_run. cbv zeta.
    destruct (getAllMockRecipes (calls s0)) as [es|err]; [|done]. cbn [snd].
    by destruct (forEach_initializeEntry es
                   (set_calls (calls s0 ++ [CallGetAllMockRecipes])
                      (set_usingMockData true s0))) as (_ & -> & _). }
  assert (inMemoryCache s1 = fold_left initializeEntryCache entries (inMemoryCache s))
    as Ho1.
  { subst s1. by rewrite Hcache, H1. }
  assert (calls s1 = (calls s ++ [CallGetAllMockRecipes])%list) as Hc1.
  { subst s1. rewrite initializeCache_run, H1. cbv zeta. cbn [snd].
    by destruct (forEach_initializeEntry entries
                   (set_calls (calls s ++ [CallGetAllMockRecipes])
                      (set_usingMockData true s))) as (_ & _ & -> & _). }
  assert (usingMockData s1 = true) as Hu1.
  { subst s1. rewrite initializeCache_run, H1. cbv zeta. cbn [snd].
    by destruct (forEach_initializeEntry entries
                   (set_calls (calls s ++ [CallGetAllMockRecipes])
                      (set_usingMockData true s))) as (_ & _ & _ & ->). }
  split; [by rewrite initializeCache_run, H1|].
  split; [by rewrite initializeCache_run, H2|].
  split; [done|].
  subst s2. rewrite initializeCache_run, H2. cbv zeta. cbn [snd].
  set (s1' := set_calls (calls s1 ++ [CallGetAllMockRecipes]) (set_usingMockData true s1)).
  destruct (forEach_initializeEntry entries s1') as (_ & Ho2 & Hc2 & _).
  split; [done|].
  split.
  { rewrite Ho2. subst s1'. cbn [inMemoryCache set_calls set_usingMockData].
    rewrite Ho1. apply fold_initialize_idempotent. }
  split.
  - intros Hne. rewrite forEach_initializeEntry_skip; [done|].
    intros [c [l|]] Hin; [left|by right]. cbn [fst].
    apply hasCuisine_cachedIn. subst s1'. cbn [inMemoryCache set_calls set_usingMockData].
    rewrite Ho1.
    destruct (fold_initialize_entry entries (inMemoryCache s) c l Hin) as [H|[_ ->]];
      [done|]. by destruct (Hne c [] Hin).
  - intros s0 c Hc. unfold getRecipesForCuisine. rewrite Hcache.
    destruct (getAllMockRecipes (calls s0)) as [es|err]; [|done].
    rewrite fold_initialize_cached; [done|]. by apply hasCuisine_cachedIn.
Qed.


(** X1. What [clearCache] does in every state: the cache object is
    emptied, so that [getAllRecipes()] is empty and [hasCuisine] is false
    for every cuisine whose name is not that of a member every object
    inherits (for such a name the code reads the inherited member, which
    the own properties of the model do not hold).  When the persisted list of names can be read, [clearCache]
    returns normally, the time stamp, the list and the entry of every
    listed cuisine are removed, and every other key of the store is kept;
    when reading the list throws, the exception leaves [clearCache] and
    the store is as before. *)
Theorem clearCache_effect (s : State number) :
  let s' := snd (clearCache s) in
  inMemoryCache s' = []
  /\ (forall c : string, c ∉ Object_prototype_names -> hasCuisine c s' = false)
  /\ getAllRecipes s' = []
  /\ (forall names : list string, persistedNames (localStorage s) = Some names ->
        fst (clearCache s) = Ok tt
        /\ localStorage s' !! CACHE_TIMESTAMP = None
        /\ localStorage s' !! CACHE_CUISINES = None
        /\ (forall c, c ∈ names -> localStorage s' !! (CACHE_PREFIX +:+ c) = None)
        /\ (forall k : string,
              k <> CACHE_TIMESTAMP -> k <> CACHE_CUISINES ->
              (forall c, c ∈ names -> k <> CACHE_PREFIX +:+ c) ->
              localStorage s' !! k = localStorage s !! k))
  /\ (persistedNames (localStorage s) = None ->
        fst (clearCache s) = Throw "SyntaxError" /\ localStorage s' = localStorage s).
Proof.
  intros s'. subst s'. destruct (persistedNames (localStorage s)) as [names|] eqn:Hn.
  - rewrite (clearCache_run s names Hn).
    cbn [fst snd inMemoryCache localStorage set_localStorage set_inMemoryCache].
    split; [done|]. split; [done|]. split; [done|]. split; [|done].
    intros names' [= <-]. split; [done|].
    split; [apply clearedStorage_removed; by left|].
    split; [apply clearedStorage_removed; right; by left|].
    split.
    + intros c Hc. apply clearedStorage_removed. right; right. by exists c.
    + intros k H1 H2 H3. by apply clearedStorage_kept.
  - rewrite (clearCache_throw s Hn).
    cbn [fst snd inMemoryCache localStorage set_inMemoryCache].
    split; [done|]. split; [done|]. split; [done|]. by split.
Qed.

(** X2. [getRecipes(C, true)] for a given cuisine [C] asks the collaborator
    whatever the cache holds: the call is recorded, and the result of the
    collaborator is the result of [getRecipes]. *)
Theorem getRecipes_forceRefresh (s : State number) (C : string) :
  truthy C = true ->
  calls (snd (getRecipes (Some C) true s))
  = (calls s ++ [CallGetMockRecipesForCuisine C])%list
  /\ fst (getRecipes (Some C) true s) = getMockRecipesForCuisine (calls s) C.
Proof.
  intros HC. rewrite getRecipes_run, HC, andb_false_r. cbv zeta.
  destruct (getMockRecipesForCuisine (calls s) C) as [R|err]; [|done].
  cbn [fst snd]. split; [|done].
  destruct (0 <? length R)%nat; [|done]. by rewrite addRecipes_run.
Qed.

End CacheClaims.



(** C3 on the example: [Italian] with two recipes, persisted at the first
    reading of the clock and read back at the second, one hour later. *)
Lemma persistence_round_trip_example :
  let s0 := set_inMemoryCache [("Italian", [carbonara; tiramisu])] emptyState in
  let persisted := localStorage (snd (saveToLocalStorage (platform := examplePlatform) s0)) in
  getAllRecipes
    (snd (RecipeCache_new (platform := examplePlatform)
            (set_clockReads 1 (set_localStorage persisted emptyState))))
  = [carbonara; tiramisu].
Proof.
  intros s0 persisted.
  pose proof (persistence_round_trip (platform := examplePlatform) s0 1700000000000
                carbonara tiramisu eq_refl eq_refl
                ltac:(split; by vm_compute) ltac:(split; by vm_compute)) as [H _].
  exact (proj1 (proj2 (H (set_clockReads 1 (set_localStorage persisted emptyState))
                         eq_refl eq_refl))).
Defined.

(** C5 on the example: [Italian] is fetched by the first call and served
    from the cache by the second. *)
Lemma getRecipes_second_call_example :
  let first := getRecipes (platform := examplePlatform) (Some "Italian") false emptyState in
  exists R : list (Recipe Z),
    fst first = Ok R
    /\ getRecipes (platform := examplePlatform) (Some "Italian") false (snd first)
       = (Ok R, snd first)
    /\ (truthy "Italian" = true ->
          hasCuisine "Italian" (snd first) = true
          /\ getRecipesForCuisine "Italian" (snd first) = R)
    /\ (truthy "Italian" = true ->
          (hasCuisine "Italian" emptyState && negb false)%bool = false ->
          R = [carbonara; tiramisu]
          /\ calls (snd first) = (calls emptyState ++ [CallGetMockRecipesForCuisine "Italian"])%list).
Proof.
  exact (getRecipes_second_call (platform := examplePlatform) emptyState "Italian" false
           [carbonara; tiramisu] eq_refl ltac:(done)).
Defined.

(** C6 on the example: the collaborator has nothing for [Thai]. *)
Lemma getRecipes_empty_result_example :
  let s' := snd (getRecipes (platform := examplePlatform) (Some "Thai") false emptyState) in
  fst (getRecipes (platform := examplePlatform) (Some "Thai") false emptyState) = Ok []
  /\ s' = set_calls (calls emptyState ++ [CallGetMockRecipesForCuisine "Thai"]) emptyState
  /\ inMemoryCache s' = inMemoryCache emptyState
  /\ hasCuisine "Thai" s' = false
  /\ localStorage s' = localStorage emptyState
  /\ clockReads s' = clockReads emptyState.
Proof.
  exact (getRecipes_empty_result (platform := examplePlatform) emptyState "Thai" false
           eq_refl eq_refl eq_refl).
Defined.

(** C7, the claim as stated: with an empty collection for [Italian], the
    second of two calls in sequence asks the collaborator again and repeats
    [addRecipes] for [Italian]: it reads the clock and writes the time
    stamp anew. *)
Lemma initializeCache_twice_repeats_work :
  let s1 := snd (initializeCache (platform := emptyItalianPlatform)
                   ["Italian"; "Mexican"] emptyState) in
  let s2 := snd (initializeCache (platform := emptyItalianPlatform)
                   ["Italian"; "Mexican"] s1) in
  hasCuisine "Italian" s1 = false
  /\ calls s1 = [CallGetAllMockRecipes]
  /\ calls s2 = [CallGetAllMockRecipes; CallGetAllMockRecipes]
  /\ clockReads s1 = 2%nat
  /\ clockReads s2 = 3%nat
  /\ localStorage s1 !! CACHE_TIMESTAMP = Some "1700003600000"
  /\ localStorage s2 !! CACHE_TIMESTAMP = Some "1700007200000".
Proof. repeat split; by vm_compute. Qed.

(** C7 (amended) on the example: two calls over the collections of
    [Italian] and [Mexican]. *)
Lemma initializeCache_twice_example :
  let s1 := snd (initializeCache (platform := examplePlatform)
                   ["Italian"; "Mexican"] emptyState) in
  let s2 := snd (initializeCache (platform := examplePlatform)
                   ["Italian"; "Mexican"] s1) in
  calls s2 = (calls s1 ++ [CallGetAllMockRecipes])%list
  /\ inMemoryCache s2 = inMemoryCache s1
  /\ localStorage s2 = localStorage s1
  /\ clockReads s2 = clockReads s1.
Proof.
  intros s1 s2.
  pose proof (initializeCache_twice (platform := examplePlatform)
                ["Italian"; "Mexican"] ["Italian"; "Mexican"] emptyState sampleMock
                eq_refl eq_refl) as (_ & _ & _ & H4 & H5 & H6 & _).
  destruct H6 as [H6 H7].
  { intros c l Hin. unfold sampleMock in Hin.
    apply elem_of_cons in Hin as [[= _ ->]|Hin]; [done|].
    apply elem_of_cons in Hin as [[= _ ->]|Hin]; [done|].
    by apply elem_of_nil in Hin. }
  exact (conj H4 (conj H5 (conj H6 H7))).
Defined.


(** C9 at the failing input: a cuisine named [cuisines] overwrites the
    persisted list of names with its own (empty) entry, and [clearCache]
    then returns normally with an empty cache object but leaves the entry
    of [Italian] in the store. *)
Theorem clearCache_leaves_entry :
  hasCuisine "Italian" cuisineNamedCuisines = true
  /\ localStorage cuisineNamedCuisines !! CACHE_CUISINES = Some "[]"
  /\ fst (clearCache (platform := examplePlatform) cuisineNamedCuisines) = Ok tt
  /\ inMemoryCache (snd (clearCache (platform := examplePlatform) cuisineNamedCuisines)) = []
  /\ localStorage (snd (clearCache (platform := examplePlatform) cuisineNamedCuisines))
       !! CACHE_TIMESTAMP = None
  /\ localStorage (snd (clearCache (platform := examplePlatform) cuisineNamedCuisines))
       !! (CACHE_PREFIX +:+ "Italian")
     = Some (JSON_stringify_recipes (Platform := examplePlatform) [carbonara]).
Proof. repeat split; by vm_compute. Qed.

(** [getRecipes("Italian", true)] on the example, with [Italian] cached. *)
Lemma getRecipes_forceRefresh_example :
  calls (snd (getRecipes (platform := examplePlatform) (Some "Italian") true twoCuisines))
  = (calls twoCuisines ++ [CallGetMockRecipesForCuisine "Italian"])%list
  /\ fst (getRecipes (platform := examplePlatform) (Some "Italian") true twoCuisines)
     = getMockRecipesForCuisine (Platform := examplePlatform) (calls twoCuisines) "Italian".
Proof.
  exact (getRecipes_forceRefresh (platform := examplePlatform) twoCuisines "Italian" eq_refl).
Defined.

(** * Further properties *)

(** ** The recipe panel *)

Section PanelFacts.
Context {number : Type}.
Implicit Types (r : Recipe number) (rs : list (Recipe number)) (fs : list string).

Lemma elem_of_List_filter {A : Type} (f : A -> bool) (l : list A) (x : A) :
  x ∈ List.filter f l <-> x ∈ l /\ f x = true.
Proof. rewrite !list_elem_of_In. apply filter_In. Qed.

Lemma NoDup_List_filter {A : Type} (f : A -> bool) (l : list A) :
  NoDup l -> NoDup (List.filter f l).
Proof.
  induction 1 as [|x l Hx Hl IH]; cbn [List.filter]; [constructor|].
  destruct (f x); [|exact IH].
  constructor; [|exact IH]. rewrite elem_of_List_filter. tauto.
Qed.

Lemma List_filter_all {A : Type} (f : A -> bool) (l : list A) :
  (forall x, x ∈ l -> f x = true) -> List.filter f l = l.
Proof.
  induction l as [|x l IH]; intros H; cbn [List.filter]; [done|].
  rewrite (H x) by left. f_equal. apply IH. intros y Hy. apply H. by right.
Qed.

Lemma array_includes_true (l : list string) (x : string) :
  array_includes l x = true <-> x ∈ l.
Proof. rewrite array_includes_elem. apply bool_decide_eq_true. Qed.

Lemma array_includes_false (l : list string) (x : string) :
  array_includes l x = false <-> x ∉ l.
Proof. rewrite array_includes_elem. apply bool_decide_eq_false. Qed.

Lemma includes_empty_r (s : string) : includes s "" = true.
Proof. by destruct s. Qed.

(** The tag test the dietary filter applies to one recipe and one filter. *)
Lemma forallb_snoc {A : Type} (f : A -> bool) (l : list A) (x : A) :
  forallb f (l ++ [x]) = (forallb f l && f x)%bool.
Proof. rewrite forallb_app. cbn [forallb]. by rewrite andb_true_r. Qed.

(** X3. Toggling a dietary filter flips its membership in the list of
    active filters, and changes the membership of no other filter. *)
Theorem toggleDietaryFilter_membership (f : string) (fs : list string) :
  (f ∈ toggleDietaryFilter f fs <-> f ∉ fs)
  /\ (forall g : string, g <> f -> (g ∈ toggleDietaryFilter f fs <-> g ∈ fs)).
Proof.
  unfold toggleDietaryFilter.
  destruct (array_includes fs f) eqn:E.
  - apply array_includes_true in E. split.
    + rewrite elem_of_List_filter. rewrite String.eqb_refl. cbn [negb].
      split; [by intros [_ ?]|tauto].
    + intros g Hg. rewrite elem_of_List_filter.
      destruct (String.eqb_spec g f) as [->|_]; [done|]. cbn [negb]. tauto.
  - apply array_includes_false in E. split.
    + rewrite elem_of_app, list_elem_of_singleton. tauto.
    + intros g Hg. rewrite elem_of_app, list_elem_of_singleton. tauto.
Qed.

(** X4. A list of active filters without repetition stays without
    repetition when a filter is toggled; and toggling a filter that is not
    active twice gives the list back. *)
Theorem toggleDietaryFilter_NoDup (f : string) (fs : list string) :
  NoDup fs ->
  NoDup (toggleDietaryFilter f fs)
  /\ (f ∉ fs -> toggleDietaryFilter f (toggleDietaryFilter f fs) = fs).
Proof.
  intros Hnd. split.
  - unfold toggleDietaryFilter. destruct (array_includes fs f) eqn:E.
    + by apply NoDup_List_filter.
    + apply array_includes_false in E. apply NoDup_app.
      split; [done|]. split; [|apply NoDup_singleton].
      intros x Hx. rewrite list_elem_of_singleton. by intros ->.
  - intros Hf. unfold toggleDietaryFilter at 2.
    rewrite (proj2 (array_includes_false fs f) Hf).
    unfold toggleDietaryFilter.
    rewrite (proj2 (array_includes_true (fs ++ [f]) f))
      by (apply elem_of_app; right; by left).
    rewrite List.filter_app. cbn [List.filter]. rewrite String.eqb_refl. cbn [negb].
    rewrite app_nil_r. apply List_filter_all. intros x Hx.
    destruct (String.eqb_spec x f) as [->|_]; done.
Qed.

(** X5. With an empty search term and no dietary filter the panel shows,
    on the [explore] tab, every recipe it is given, and a recipe without
    [dietaryTags] is shown under no dietary filter at all. *)
Theorem panel_without_filters (rs : list (Recipe number)) :
  displayedRecipes "explore" "" [] rs = rs
  /\ (forall (term f : string) (fs : list string) (r : Recipe number),
        dietaryTags r = None ->
        r ∉ displayedRecipes "explore" term (f :: fs) rs).
Proof.
  split.
  - unfold displayedRecipes, panelFilteredRecipes. cbn [String.eqb Ascii.eqb Bool.eqb].
    apply List_filter_all. intros r _.
    unfold matchesSearch, matchesDietary. cbn [toLowerCase List.length Nat.eqb orb].
    by rewrite includes_empty_r.
  - intros term f fs r Hr. unfold displayedRecipes, panelFilteredRecipes.
    cbn [String.eqb Ascii.eqb Bool.eqb]. rewrite elem_of_List_filter.
    unfold matchesDietary. rewrite Hr. cbn [List.length Nat.eqb orb].
    rewrite andb_false_r. by intros [_ ?].
Qed.

(** X6. What the panel's filter keeps: a recipe is on the filtered list
    exactly when it is one of the given recipes, its title contains the
    search term (both in lower case), and, when filters are active, it has
    [dietaryTags] and every active filter is among them.  The filtered list
    keeps the order of the recipes given. *)
Theorem panelFilteredRecipes_spec (term : string) (fs : list string)
    (rs : list (Recipe number)) (r : Recipe number) :
  (r ∈ panelFilteredRecipes term fs rs <->
     r ∈ rs
     /\ includes (toLowerCase (title r)) (toLowerCase term) = true
     /\ (fs = [] \/ exists tags, dietaryTags r = Some tags /\ forall f, f ∈ fs -> f ∈ tags))
  /\ sublist (panelFilteredRecipes term fs rs) rs.
Proof.
  split.
  - unfold panelFilteredRecipes. rewrite elem_of_List_filter, andb_true_iff.
    unfold matchesSearch, matchesDietary. rewrite orb_true_iff.
    assert (Nat.eqb (List.length fs) 0 = true <-> fs = []) as ->.
    { destruct fs; cbn; split; done. }
    assert (match dietaryTags r with
            | Some tags => forallb (fun filter0 => array_includes tags filter0) fs
            | None => false
            end = true <->
            exists tags, dietaryTags r = Some tags /\ forall f, f ∈ fs -> f ∈ tags) as ->.
    { destruct (dietaryTags r) as [tags|].
      - rewrite forallb_forall. split.
        + intros H. exists tags. split; [done|]. intros f Hf.
          apply array_includes_true, H. by apply list_elem_of_In.
        + intros (tags' & [= <-] & H) f Hf.
          apply array_includes_true, H. by apply list_elem_of_In.
      - split; [done|]. by intros (? & ? & _). }
    tauto.
  - unfold panelFilteredRecipes. induction rs as [|x rs IH]; cbn [List.filter].
    + constructor.
    + destruct (_ && _)%bool; by constructor.
Qed.

End PanelFacts.

(** ** The panel, the favourites and the region scope together *)

Section HomeFacts.
Context {number : Type}.
Implicit Types (r : Recipe number) (rs : list (Recipe number)) (fs : list string).

Lemma List_filter_filter {A : Type} (f g : A -> bool) (l : list A) :
  List.filter g (List.filter f l) = List.filter (fun x => (f x && g x)%bool) l.
Proof.
  induction l as [|x l IH]; cbn [List.filter]; [done|].
  destruct (f x); cbn [List.filter andb]; [|exact IH].
  destruct (g x); by rewrite IH.
Qed.

Lemma matchesDietary_snoc fs (f : string) r :
  matchesDietary (fs ++ [f]) r =
  (matchesDietary fs r
   && match dietaryTags r with
      | Some tags => array_includes tags f
      | None => false
      end)%bool.
Proof.
  unfold matchesDietary. rewrite length_app. cbn [List.length].
  replace (Nat.eqb (List.length fs + 1) 0) with false
    by (symmetry; apply Nat.eqb_neq; lia).
  cbn [orb]. destruct (dietaryTags r) as [tags|].
  - rewrite forallb_snoc. destruct fs; [done|]. by cbn [List.length Nat.eqb orb].
  - by rewrite orb_false_r, andb_false_r.
Qed.

Lemma matchesDietary_remove fs (f : string) r :
  matchesDietary fs r = true ->
  matchesDietary (List.filter (fun g => negb (String.eqb g f)) fs) r = true.
Proof.
  unfold matchesDietary. rewrite !orb_true_iff. intros [H|H].
  - destruct fs; [|done]. by left.
  - right. destruct (dietaryTags r) as [tags|]; [|done].
    rewrite forallb_forall in *. intros g Hg. apply H.
    apply filter_In in Hg. tauto.
Qed.

(** X7. Switching a dietary filter on narrows the filtered list to the
    recipes that carry the tag; switching an active filter off removes no
    recipe from the filtered list. *)
Theorem toggleDietaryFilter_narrows (term f : string) (fs : list string)
    (rs : list (Recipe number)) :
  (f ∉ fs ->
   panelFilteredRecipes term (toggleDietaryFilter f fs) rs =
   List.filter (fun r => match dietaryTags r with
                         | Some tags => array_includes tags f
                         | None => false
                         end)
               (panelFilteredRecipes term fs rs))
  /\ (f ∈ fs ->
      forall r, r ∈ panelFilteredRecipes term fs rs ->
                r ∈ panelFilteredRecipes term (toggleDietaryFilter f fs) rs).
Proof.
  unfold toggleDietaryFilter, panelFilteredRecipes. split.
  - intros Hf. rewrite (proj2 (array_includes_false fs f) Hf).
    rewrite List_filter_filter. apply filter_ext. intros r.
    rewrite matchesDietary_snoc. by rewrite andb_assoc.
  - intros Hf r. rewrite (proj2 (array_includes_true fs f) Hf).
    rewrite !elem_of_List_filter, !andb_true_iff.
    intros (? & ? & ?). eauto using matchesDietary_remove.
Qed.

Lemma elem_of_toggleFavorite id0 rs r :
  r ∈ rs ->
  (if String.eqb (id r) id0 then with_isFavorite r (negb (isFavorite r)) else r)
    ∈ toggleFavorite id0 rs.
Proof.
  intros Hr. unfold toggleFavorite. apply list_elem_of_In.
  apply (in_map (fun recipe => if String.eqb (id recipe) id0
                               then with_isFavorite recipe (negb (isFavorite recipe))
                               else recipe)).
  by apply list_elem_of_In.
Qed.

(** X8. The favourites tab after a toggle: a recipe of the list whose
    identifier is the toggled one is shown, with its flag set, exactly when
    it was no favourite before; a recipe with another identifier is shown
    exactly when it was a favourite before. *)
Theorem favoriteRecipes_after_toggle (id0 : string) (rs : list (Recipe number))
    (r : Recipe number) :
  r ∈ rs ->
  (id r = id0 ->
   (with_isFavorite r (negb (isFavorite r)) ∈ favoriteRecipes (toggleFavorite id0 rs)
    <-> isFavorite r = false))
  /\ (id r <> id0 ->
      (r ∈ favoriteRecipes (toggleFavorite id0 rs) <-> isFavorite r = true)).
Proof.
  intros Hr. pose proof (elem_of_toggleFavorite id0 rs r Hr) as Ht.
  unfold favoriteRecipes. split.
  - intros E. rewrite (proj2 (String.eqb_eq _ _) E) in Ht.
    rewrite elem_of_List_filter. cbn [isFavorite with_isFavorite].
    rewrite negb_true_iff. tauto.
  - intros Hne. rewrite (proj2 (String.eqb_neq _ _) Hne) in Ht.
    rewrite elem_of_List_filter. tauto.
Qed.

(** X9. [toggleFavorite] of [Home] keeps the selected recipe in step with
    the list: a selected recipe that is on the list is, after the toggle,
    again on the list, with the same identifier and with its flag negated
    exactly when its identifier is the toggled one; and a second toggle
    gives both states back. *)
Theorem homeToggleFavorite_selected (id0 : string) (rs : list (Recipe number))
    (r : Recipe number) :
  r ∈ rs ->
  exists r',
    snd (homeToggleFavorite id0 (rs, Some r)) = Some r'
    /\ r' ∈ fst (homeToggleFavorite id0 (rs, Some r))
    /\ id r' = id r
    /\ isFavorite r' = (if String.eqb (id r) id0 then negb (isFavorite r) else isFavorite r)
    /\ homeToggleFavorite id0 (homeToggleFavorite id0 (rs, Some r)) = (rs, Some r).
Proof.
  intros Hr. pose proof (elem_of_toggleFavorite id0 rs r Hr) as Ht.
  unfold homeToggleFavorite. cbn [fst snd].
  destruct (String.eqb (id r) id0) eqn:E.
  - eexists. split; [reflexivity|]. split; [exact Ht|].
    split; [reflexivity|]. split; [reflexivity|].
    rewrite toggleFavorite_involutive. f_equal.
    destruct r; cbn in *. by rewrite E, negb_involutive.
  - eexists. split; [reflexivity|]. split; [exact Ht|].
    split; [reflexivity|]. split; [reflexivity|].
    by rewrite toggleFavorite_involutive, E.
Qed.

Lemma filteredRecipes_continent (activeRegion : Region number) (searchQuery : string)
    (rs : list (Recipe number)) :
  name activeRegion ∈ continents ->
  truthy searchQuery = false ->
  filteredRecipes explore searchQuery (Some activeRegion) rs =
  Ok (List.filter (fun r => String.eqb (toLowerCase (region r))
                                       (toLowerCase (name activeRegion))) rs).
Proof.
  intros Hc Hq. unfold filteredRecipes. apply filter_throwing_Ok. intros r _.
  unfold filterCallback, inActiveRegion.
  by rewrite Hq, (proj2 (array_includes_true _ _) Hc).
Qed.

(** X10. [getRecipesByRegion] gives the whole list for [null] and for the
    empty string.  For any other region it keeps exactly the recipes of the
    list whose region is equal to the one asked for, in the order of the
    list; and for a continent label each recipe it keeps is also kept by
    the filter of [Home] under the scope of that label, in the [explore]
    view without a search, where that filter does not throw. *)
Theorem getRecipesByRegion_scope (rs : list (Recipe number)) :
  getRecipesByRegion rs None = rs
  /\ getRecipesByRegion rs (Some "") = rs
  /\ (forall (region0 : string) (r : Recipe number),
        truthy region0 = true ->
        (r ∈ getRecipesByRegion rs (Some region0) <-> r ∈ rs /\ region r = region0))
  /\ (forall region0 : option string, sublist (getRecipesByRegion rs region0) rs)
  /\ (forall activeRegion : Region number,
        name activeRegion ∈ continents ->
        exists kept : list (Recipe number),
          filteredRecipes explore "" (Some activeRegion) rs = Ok kept
          /\ forall r, r ∈ getRecipesByRegion rs (Some (name activeRegion)) -> r ∈ kept).
Proof.
  split; [done|]. split; [done|]. split; [|split].
  - intros region0 r Ht. unfold getRecipesByRegion.
    cbn [truthy_opt the_string]. rewrite Ht. cbn [negb].
    rewrite elem_of_List_filter. by rewrite String.eqb_eq.
  - intros region0. unfold getRecipesByRegion.
    destruct (negb (truthy_opt region0)); [done|].
    induction rs as [|x rs IH]; cbn [List.filter]; [constructor|].
    destruct (String.eqb (region x) (the_string region0)); by constructor.
  - intros a Hc. eexists. split; [by apply filteredRecipes_continent|].
    intros r. unfold getRecipesByRegion.
    assert (truthy (name a) = true) as Ht.
    { unfold continents in Hc. repeat (apply elem_of_cons in Hc as [->|Hc]; [done|]).
      by apply elem_of_nil in Hc. }
    cbn [truthy_opt the_string]. rewrite Ht. cbn [negb].
    rewrite !elem_of_List_filter. intros [Hin E%String.eqb_eq].
    split; [done|]. rewrite E. apply String.eqb_refl.
Qed.

(** X11. The cuisine the effect of [Home] asks for is never the empty
    string; for a name in its country table it is the cuisine the filter's
    own table gives that name; the six continent labels of its region table
    have no entry in the country table and get the cuisine of the region
    table; and a name in neither table, unless it is a member every object
    inherits, gets [Italian]. *)
Theorem effectCuisine_tables (name0 : string) :
  (forall c, effectCuisine name0 = Some c -> truthy c = true)
  /\ (forall c, table_get name0 effect_countryToCuisine = Some c ->
        effectCuisine name0 = Some c /\ table_get name0 countryToCuisine = Some c)
  /\ (forall c, table_get name0 regionToCuisine = Some c ->
        effectCuisine name0 = Some c /\ name0 ∈ continents)
  /\ (table_get name0 effect_countryToCuisine = None ->
      table_get name0 regionToCuisine = None ->
      name0 ∉ Object_prototype_names ->
      effectCuisine name0 = Some "Italian").
Proof.
  split; [|split; [|split]].
  - intros c. unfold effectCuisine, member, effect_countryToCuisine, regionToCuisine.
    cbn [table_get].
    repeat match goal with
           | |- context [String.eqb name0 ?x] =>
               destruct (String.eqb_spec name0 x) as [->|?]; [cbn; by intros [= <-]|]
           end.
    destruct (array_includes Object_prototype_names name0); [done|].
    by intros [= <-].
  - intros c. unfold effectCuisine, member, effect_countryToCuisine, countryToCuisine.
    cbn [table_get].
    repeat match goal with
           | |- context [String.eqb name0 ?x] =>
               destruct (String.eqb_spec name0 x) as [->|?]; [cbn; by intros [= <-]|]
           end.
    done.
  - intros c. unfold effectCuisine, member, effect_countryToCuisine, regionToCuisine,
      continents.
    cbn [table_get].
    repeat match goal with
           | |- context [String.eqb name0 ?x] =>
               destruct (String.eqb_spec name0 x) as [->|?];
               [cbn; intros [= <-]; split; [done|set_solver]|]
           end.
    done.
  - intros H1 H2 H3. unfold effectCuisine, member. rewrite H1, H2.
    by rewrite (proj2 (array_includes_false Object_prototype_names name0) H3).
Qed.

End HomeFacts.

(** ** The recipe transformation *)

Section TagFacts.

Lemma stripTags_skipTag_tagFree (s : string) :
  tagFree (stripTags s) = true /\ tagFree (skipTag s) = true.
Proof.
  induction s as [|c s [IH1 IH2]]; [done|].
  split.
  - cbn [stripTags]. destruct (Ascii.eqb c "<") eqn:Ec.
    + destruct s as [|d s']; [cbn [tagFree]; by rewrite orb_true_r|].
      destruct (Ascii.eqb_spec d ">") as [->|Hd]; [|exact IH2].
      cbn [tagFree]. rewrite Ec. cbn [negb orb].
      rewrite IH1. by cbn.
    + cbn [tagFree]. by rewrite Ec, IH1.
  - cbn [skipTag]. by destruct (Ascii.eqb c ">").
Qed.

Lemma tagFree_fixed (s : string) : tagFree s = true -> stripTags s = s.
Proof.
  induction s as [|c s IH]; [done|].
  cbn [tagFree stripTags]. intros [H1 H2]%andb_true_iff.
  destruct (Ascii.eqb c "<"); cbn [negb orb] in H1.
  - destruct s as [|d s']; [done|]. rewrite H1. by rewrite IH.
  - by rewrite IH.
Qed.

Lemma stripTags_skipTag_length (s : string) :
  (String.length (stripTags s) <= String.length s
   /\ String.length (skipTag s) <= String.length s)%nat.
Proof.
  induction s as [|c s [IH1 IH2]]; [done|].
  split.
  - cbn [stripTags]. destruct (Ascii.eqb c "<").
    + destruct s as [|d s']; [done|].
      destruct (Ascii.eqb d ">"); cbn [String.length] in *; lia.
    + cbn [String.length]. lia.
  - cbn [skipTag]. destruct (Ascii.eqb c ">"); cbn [String.length]; lia.
Qed.

(** X12. Removing the tags of a text leaves a text in which the pattern
    matches nowhere: no [<] is followed by a character other than [>].
    Removing the tags a second time changes nothing, a text in which the
    pattern matches nowhere is left as it is, and the result is never
    longer than the text. *)
Theorem stripTags_spec (s : string) :
  tagFree (stripTags s) = true
  /\ stripTags (stripTags s) = stripTags s
  /\ (tagFree s = true -> stripTags s = s)
  /\ (String.length (stripTags s) <= String.length s)%nat.
Proof.
  split; [apply stripTags_skipTag_tagFree|].
  split; [apply tagFree_fixed, stripTags_skipTag_tagFree|].
  split; [apply tagFree_fixed|apply stripTags_skipTag_length].
Qed.

End TagFacts.

Section ApiFacts.
Context {number : Type} {numbers : Numbers number}.
Implicit Types (recipe : SpoonacularRecipeDetail number) (r : Recipe number).

Lemma pushDiet_spec (tags : list string) (diet : string) :
  NoDup tags ->
  NoDup (pushDiet tags diet)
  /\ forall t, t ∈ pushDiet tags diet <-> t ∈ tags \/ t = diet.
Proof.
  intros Hnd. unfold pushDiet. destruct (array_includes tags diet) eqn:E; cbn [negb].
  - apply array_includes_true in E. split; [done|].
    intros t. split; [tauto|]. by intros [?| ->].
  - apply array_includes_false in E. split.
    + apply NoDup_app. split; [done|]. split; [|apply NoDup_singleton].
      intros x Hx. rewrite list_elem_of_singleton. by intros ->.
    + intros t. by rewrite elem_of_app, list_elem_of_singleton.
Qed.

Lemma fold_pushDiet_spec (diets0 tags : list string) :
  NoDup tags ->
  NoDup (fold_left pushDiet diets0 tags)
  /\ forall t, t ∈ fold_left pushDiet diets0 tags <-> t ∈ tags \/ t ∈ diets0.
Proof.
  revert tags. induction diets0 as [|d ds IH]; intros tags Hnd; cbn [fold_left].
  - split; [done|]. intros t. rewrite elem_of_nil. tauto.
  - destruct (pushDiet_spec tags d Hnd) as [H1 H2].
    destruct (IH _ H1) as [H3 H4]. split; [done|].
    intros t. rewrite H4, H2, elem_of_cons. tauto.
Qed.

(** X13. The dietary tags of a recipe are without repetition, and they
    are exactly the tags of the flags that are set ([vegetarian], [vegan],
    [gluten-free], [dairy-free]) and the entries of [diets], when the
    recipe has that array. *)
Theorem getDietaryTags_spec (recipe : SpoonacularRecipeDetail number) :
  NoDup (getDietaryTags recipe)
  /\ forall t : string,
       t ∈ getDietaryTags recipe <->
       (t = "vegetarian" /\ vegetarian recipe = true)
       \/ (t = "vegan" /\ vegan recipe = true)
       \/ (t = "gluten-free" /\ glutenFree recipe = true)
       \/ (t = "dairy-free" /\ dairyFree recipe = true)
       \/ (exists diets0, diets recipe = Some diets0 /\ t ∈ diets0).
Proof.
  unfold getDietaryTags. cbv zeta.
  match goal with |- context [fold_left pushDiet _ ?t] => set (tags := t) end.
  assert (NoDup tags /\
          forall t, t ∈ tags <->
            (t = "vegetarian" /\ vegetarian recipe = true)
            \/ (t = "vegan" /\ vegan recipe = true)
            \/ (t = "gluten-free" /\ glutenFree recipe = true)
            \/ (t = "dairy-free" /\ dairyFree recipe = true)) as [Hnd Hin].
  { subst tags.
    destruct (vegetarian recipe), (vegan recipe), (glutenFree recipe),
      (dairyFree recipe); cbn [app];
      (split; [by apply (bool_decide_unpack _)|]);
      intros t; rewrite ?elem_of_cons, ?elem_of_nil; intuition congruence. }
  clearbody tags.
  destruct (diets recipe) as [diets0|].
  - assert (NoDup (fold_left pushDiet diets0 tags) /\
            forall t, t ∈ fold_left pushDiet diets0 tags <-> t ∈ tags \/ t ∈ diets0)
      as [H1 H2] by by apply fold_pushDiet_spec.
    destruct diets0 as [|d ds].
    + cbn [List.length Nat.ltb Nat.leb]. split; [done|].
      intros t. rewrite Hin. split; [tauto|].
      intros [?|[?|[?|[?|(? & [= <-] & H%elem_of_nil)]]]]; tauto.
    + cbn [List.length Nat.ltb Nat.leb]. split; [done|].
      intros t. rewrite H2, Hin. split.
      * intros [?|?]; [tauto|]. do 4 right. eauto.
      * intros [?|[?|[?|[?|(? & [= <-] & H)]]]]; tauto.
  - split; [done|]. intros t. rewrite Hin. split; [tauto|].
    intros [?|[?|[?|[?|(? & [=] & _)]]]]; tauto.
Qed.

Lemma map_throwing_capitalize (words : list string) :
  match map_throwing capitalize words with
  | Ok words' => ("" ∉ words) /\ words' = map upperFirst words
  | Throw _ => "" ∈ words
  end.
Proof.
  induction words as [|w ws IH]; cbn [map_throwing map].
  - split; [apply not_elem_of_nil|done].
  - destruct w as [|a w]; cbn [capitalize]; [left|].
    destruct (map_throwing capitalize ws).
    + destruct IH as [IH ->]. split; [|done].
      rewrite elem_of_cons. by intros [?|?].
    + by right.
Qed.

Lemma member_Inherited {V : Type} (k : string) (t : list (string * V)) :
  (forall k', k' ∈ map fst t -> k' ∉ Object_prototype_names) ->
  member k t = Inherited <-> k ∈ Object_prototype_names.
Proof.
  intros Hdisj. unfold member. destruct (table_get k t) as [v|] eqn:E.
  - split; [done|]. intros Hk. exfalso. apply (Hdisj k); [|done].
    clear Hdisj Hk. induction t as [|[k' v'] t IH]; [done|].
    cbn [table_get map fst] in *. destruct (String.eqb_spec k k') as [->|_].
    + left.
    + right. by apply IH.
  - destruct (array_includes Object_prototype_names k) eqn:E'.
    + by apply array_includes_true in E'.
    + apply array_includes_false in E'. by split.
Qed.

Lemma countryToRegion_keys (k : string) :
  k ∈ map fst countryToRegion -> k ∉ Object_prototype_names.
Proof.
  cbn [map fst countryToRegion]. intros H.
  repeat (apply elem_of_cons in H as [->|H];
          [by apply array_includes_false|]).
  by apply elem_of_nil in H.
Qed.

Lemma cuisineToCoordinates_keys (k : string) :
  k ∈ map fst cuisineToCoordinates -> k ∉ Object_prototype_names.
Proof.
  cbn [map fst cuisineToCoordinates]. intros H.
  repeat (apply elem_of_cons in H as [->|H];
          [by apply array_includes_false|]).
  by apply elem_of_nil in H.
Qed.

Lemma getRegionFromCountry_range (country0 region0 : string) :
  getRegionFromCountry country0 = Some region0 ->
  region0 ∈ continents \/ region0 = "Global".
Proof.
  unfold getRegionFromCountry, member, countryToRegion, continents. cbn [table_get].
  repeat match goal with
         | |- context [String.eqb country0 ?x] =>
             destruct (String.eqb_spec country0 x) as [->|?];
             [cbn; intros [= <-]; left; set_solver|]
         end.
  destruct (array_includes Object_prototype_names country0); [done|].
  intros [= <-]. by right.
Qed.

Lemma getRegionFromCountry_absent (country0 region0 : string) :
  getRegionFromCountry country0 = Some region0 ->
  table_get country0 countryToRegion = None ->
  region0 = "Global".
Proof.
  unfold getRegionFromCountry, member. intros H E. rewrite E in H.
  destruct (array_includes Object_prototype_names country0); [done|].
  by injection H as <-.
Qed.

End ApiFacts.

Section TransformFacts.
Context {number : Type} {numbers : Numbers number}.
Implicit Types (recipe : SpoonacularRecipeDetail number) (r : Recipe number).

(** X14. The three outcomes of [transformSpoonacularRecipe].  It throws
    exactly when the first cuisine has an empty word (it is empty, begins
    or ends with a space, or has two spaces in a row).  Otherwise it
    returns an object that is no [Recipe] exactly when the first cuisine in
    lower case, or the country made of it, is the name of a member every
    object inherits.  Otherwise it returns a recipe: without cuisines, one
    of country and region [Global] at the random position; with a cuisine,
    one whose country is the cuisine with the first letter of each word in
    upper case. *)
Theorem transformSpoonacularRecipe_outcome (random : number * number)
    (recipe : SpoonacularRecipeDetail number) :
  match transformSpoonacularRecipe random recipe with
  | Thrown _ =>
      exists cuisine, firstCuisine recipe = Some cuisine /\ "" ∈ split_space cuisine
  | Untyped =>
      exists cuisine,
        firstCuisine recipe = Some cuisine
        /\ ("" ∉ split_space cuisine)
        /\ (toLowerCase cuisine ∈ Object_prototype_names
            \/ join_space (map upperFirst (split_space cuisine)) ∈ Object_prototype_names)
  | Returned r =>
      match firstCuisine recipe with
      | Some cuisine =>
          ("" ∉ split_space cuisine)
          /\ (toLowerCase cuisine ∉ Object_prototype_names)
          /\ country r = join_space (map upperFirst (split_space cuisine))
          /\ (country r ∉ Object_prototype_names)
      | None => country r = "Global" /\ region r = "Global" /\ coordinates r = random
      end
  end.
Proof.
  unfold transformSpoonacularRecipe, countryOfCuisine.
  destruct (firstCuisine recipe) as [cuisine|]; [|by cbn].
  pose proof (map_throwing_capitalize (split_space cuisine)) as Hw.
  destruct (map_throwing capitalize (split_space cuisine)) as [words|e]; [|eauto].
  destruct Hw as [Hw ->].
  pose proof (member_Inherited (toLowerCase cuisine) cuisineToCoordinates
                cuisineToCoordinates_keys) as Hc.
  pose proof (member_Inherited (join_space (map upperFirst (split_space cuisine)))
                countryToRegion countryToRegion_keys) as Hr.
  unfold getRegionFromCountry.
  destruct (member (toLowerCase cuisine) cuisineToCoordinates) as [c| |];
    destruct (member (join_space (map upperFirst (split_space cuisine))) countryToRegion)
      as [g| |]; cbn [country];
    try (exists cuisine; tauto);
    (split; [done|]); (split; [by intros ?%Hc|]); (split; [done|]); by intros ?%Hr.
Qed.

(** X15. A recipe [transformSpoonacularRecipe] returns is no favourite;
    its identifier is [spoonacular-] followed by the number, hence never a
    mock identifier; its region is a continent label of the filter or
    [Global]; the pattern of the tags matches nowhere in its description;
    it has a list of ingredients, one for each ingredient of the source, a
    list of instructions and a list of dietary tags; and the panel's
    dietary filter for a single tag keeps it exactly when the tag is one of
    [getDietaryTags]. *)
Theorem transformSpoonacularRecipe_shape (random : number * number)
    (recipe : SpoonacularRecipeDetail number) (r : Recipe number) :
  transformSpoonacularRecipe random recipe = Returned r ->
  isFavorite r = false
  /\ id r = "spoonacular-" +:+ Number_toString (recipe_id recipe)
  /\ startsWith (id r) "mock-" = false
  /\ (region r ∈ continents \/ region r = "Global")
  /\ tagFree (description r) = true
  /\ (exists l, ingredients r = Some l
                /\ List.length l = List.length (extendedIngredients recipe))
  /\ (exists l, instructions r = Some l)
  /\ dietaryTags r = Some (getDietaryTags recipe)
  /\ (forall f : string, matchesDietary [f] r = true <-> f ∈ getDietaryTags recipe).
Proof.
  unfold transformSpoonacularRecipe.
  destruct (countryOfCuisine recipe) as [country0|]; [|done].
  destruct (match firstCuisine recipe with Some _ => _ | None => _ end) as [c|]; [|done].
  destruct (getRegionFromCountry country0) as [region0|] eqn:Hg; [|done].
  intros [= <-].
  cbn [isFavorite id region description ingredients instructions dietaryTags].
  split; [done|]. split; [done|]. split; [done|].
  split; [by apply (getRegionFromCountry_range country0)|].
  split; [apply stripTags_skipTag_tagFree|].
  split; [eexists; split; [reflexivity|apply length_map]|].
  split; [by eexists|]. split; [done|].
  intros f. unfold matchesDietary.
  cbn [dietaryTags List.length Nat.eqb orb forallb]. rewrite andb_true_r.
  apply array_includes_true.
Qed.

(** X16. A returned recipe whose country has no entry in the table of
    [getRegionFromCountry] has the region [Global], and the filter of
    [Home] keeps it under no continent label. *)
Theorem transformed_outside_continents (random : number * number)
    (recipe : SpoonacularRecipeDetail number) (r : Recipe number) :
  transformSpoonacularRecipe random recipe = Returned r ->
  table_get (country r) countryToRegion = None ->
  region r = "Global"
  /\ forall label : string, label ∈ continents -> inActiveRegion label r = Ok false.
Proof.
  unfold transformSpoonacularRecipe.
  destruct (countryOfCuisine recipe) as [country0|]; [|done].
  destruct (match firstCuisine recipe with Some _ => _ | None => _ end) as [c|]; [|done].
  destruct (getRegionFromCountry country0) as [region0|] eqn:Hg; [|done].
  intros [= <-]. cbn [country region]. intros Hc.
  assert (region0 = "Global") as -> by eauto using getRegionFromCountry_absent.
  split; [done|]. intros label Hl. unfold inActiveRegion.
  rewrite (proj2 (array_includes_true _ _) Hl). cbn [region].
  unfold continents in Hl.
  repeat (apply elem_of_cons in Hl as [->|Hl]; [done|]).
  by apply elem_of_nil in Hl.
Qed.

End TransformFacts.

(** ** The hook *)

Section ObjectValues.
Context {V : Type}.
Implicit Types (o : list (string * list V)) (k : string) (v : list V).

(** Every property of [o] is an empty array. *)
Lemma concat_values_nil o :
  concat (obj_values o) = [] <-> Forall (fun kv => snd kv = []) o.
Proof.
  unfold obj_values. induction o as [|[k v] o IH]; cbn [map concat snd].
  - split; [constructor|done].
  - rewrite Forall_cons. cbn [snd]. rewrite <- IH.
    split; [by intros [-> ->]%app_eq_nil|by intros [-> ->]].
Qed.

Lemma concat_values_replace k v o :
  Forall (fun kv => snd kv = []) o -> is_Some (obj_get k o) ->
  concat (obj_values (obj_replace k v o)) = v.
Proof.
  unfold obj_values, obj_get. induction 1 as [|[k' v'] o Hv Ho IH];
    cbn [table_get obj_replace]; [by intros [? ?]|].
  cbn [snd] in Hv. subst v'. destruct (String.eqb k k'); cbn [map concat snd].
  - intros _. apply concat_values_nil in Ho. unfold obj_values in Ho.
    by rewrite Ho, app_nil_r.
  - exact IH.
Qed.

Lemma concat_values_insert_index (n : N) k v o :
  Forall (fun kv => snd kv = []) o ->
  concat (obj_values (obj_insert_index n k v o)) = v.
Proof.
  unfold obj_values. induction 1 as [|[k' v'] o Hv Ho IH];
    cbn [obj_insert_index map concat snd]; [apply app_nil_r|].
  cbn [snd] in Hv. subst v'. apply concat_values_nil in Ho as Ho'.
  unfold obj_values in Ho'.
  destruct (array_index k') as [n'|]; [destruct (n <? n')%N|];
    cbn [map concat snd]; rewrite ?Ho', ?app_nil_r; done.
Qed.

Lemma concat_values_set k v o :
  concat (obj_values o) = [] -> concat (obj_values (obj_set k v o)) = v.
Proof.
  intros Ho. apply concat_values_nil in Ho as Hall. unfold obj_set.
  destruct (obj_get k o) eqn:E.
  - apply concat_values_replace; [done|]. by rewrite E.
  - destruct (array_index k).
    + by apply concat_values_insert_index.
    + unfold obj_values in *. rewrite map_app, concat_app, Ho.
      cbn [map concat snd app]. apply app_nil_r.
Qed.

Lemma concat_values_get k v o :
  obj_get k o = Some v -> concat (obj_values o) = [] -> v = [].
Proof.
  intros E Ho. apply concat_values_nil in Ho. revert E. unfold obj_get.
  induction Ho as [|[k' v'] o Hv Ho IH]; cbn [table_get]; [done|].
  destruct (String.eqb k k'); [|exact IH]. cbn [snd] in Hv. congruence.
Qed.

End ObjectValues.

Section HookFacts.
Context {number : Type} {platform : Platform number}.
Implicit Types (s : State number) (h : HookState number).

Lemma fetchRecipesForCuisine_run (cuisine : string) h s :
  fetchRecipesForCuisine cuisine h s =
  let h1 := setError None (setLoading true h) in
  if hasCuisine cuisine s
  then (Ok (setLoading false (setLoading false
              (setRecipes (getRecipesForCuisine cuisine s) h1))), s)
  else
    match getRecipes (Some cuisine) false s with
    | (Ok fetchedRecipes, s') => (Ok (setLoading false (setRecipes fetchedRecipes h1)), s')
    | (Throw _, s') =>
        (Ok (setLoading false
               (setRecipes [] (setError (Some (fetchFailure cuisine)) h1))), s')
    end.
Proof.
  unfold fetchRecipesForCuisine, try_catch, bind, gets, ret. cbv zeta.
  destruct (hasCuisine cuisine s); [done|].
  by destruct (getRecipes (Some cuisine) false s) as [[fetched|e] s'].
Qed.

Lemma hasCuisine_false_get (c : string) s :
  hasCuisine c s = false -> getRecipesForCuisine c s = [].
Proof.
  unfold hasCuisine, getRecipesForCuisine.
  by destruct (obj_get c (inMemoryCache s)) as [[|r l]|].
Qed.

Lemma hasCuisine_getAllRecipes (c : string) s :
  getAllRecipes s = [] -> hasCuisine c s = false.
Proof.
  unfold hasCuisine, getAllRecipes. intros H.
  destruct (obj_get c (inMemoryCache s)) as [l|] eqn:E; [|done].
  by rewrite (concat_values_get c l _ E H).
Qed.

(** X17. [fetchRecipesForCuisine] for a cuisine that is not the empty
    string, nor the name of a member every object inherits, never throws, ends with [loading] false and leaves
    [selectedCuisine] as it is.  A cached cuisine is shown from the cache,
    with no call of the collaborator and no change of the cache state.  For
    a cuisine that is not cached the collaborator is called once: what it
    returns is shown and no error is set; when it throws, the error of the
    cuisine is set, the list shown is empty and the cache is as before.
    Whenever no error is set, the list shown is what the cache then holds
    for the cuisine. *)
Theorem fetchRecipesForCuisine_outcome (cuisine : string) (h : HookState number)
    (s : State number) :
  truthy cuisine = true ->
  cuisine ∉ Object_prototype_names ->
  exists h' : HookState number,
    let s' := snd (fetchRecipesForCuisine cuisine h s) in
    fst (fetchRecipesForCuisine cuisine h s) = Ok h'
    /\ loading h' = false
    /\ selectedCuisine h' = selectedCuisine h
    /\ (hasCuisine cuisine s = true ->
          s' = s /\ error h' = None /\ recipes h' = getRecipesForCuisine cuisine s)
    /\ (hasCuisine cuisine s = false ->
          calls s' = (calls s ++ [CallGetMockRecipesForCuisine cuisine])%list
          /\ match getMockRecipesForCuisine (calls s) cuisine with
             | Ok fetched => error h' = None /\ recipes h' = fetched
             | Throw _ =>
                 error h' = Some (fetchFailure cuisine) /\ recipes h' = []
                 /\ inMemoryCache s' = inMemoryCache s
                 /\ localStorage s' = localStorage s
             end)
    /\ (error h' = None -> recipes h' = getRecipesForCuisine cuisine s').
Proof.
  intros Ht _. rewrite fetchRecipesForCuisine_run. cbv zeta.
  destruct (hasCuisine cuisine s) eqn:Hc.
  - eexists. cbn [fst snd]. split; [reflexivity|]. by cbn.
  - rewrite getRecipes_run, Ht, Hc. cbn [andb]. cbv zeta.
    destruct (getMockRecipesForCuisine (calls s) cuisine) as [fetched|e].
    + eexists. cbn [fst snd]. split; [reflexivity|].
      cbn [loading selectedCuisine error recipes setLoading setRecipes setError].
      split; [done|]. split; [done|]. split; [done|]. split.
      * intros _. split; [|done]. destruct fetched as [|r l]; [done|].
        cbn [List.length Nat.ltb Nat.leb]. by rewrite addRecipes_run.
      * intros _. destruct fetched as [|r l].
        -- cbn [List.length Nat.ltb Nat.leb]. symmetry. by apply hasCuisine_false_get.
        -- cbn [List.length Nat.ltb Nat.leb].
           by rewrite getRecipesForCuisine_addRecipes.
    + eexists. cbn [fst snd]. split; [reflexivity|]. by cbn.
Qed.

(** X18. [initCache] never throws and never sets the error of a failed
    initialisation; it ends with [loading] false and the mock flag set, and
    the list it shows is, in every case, the list of all recipes of the
    cache.  The error it leaves is the one it found, when the cache has
    recipes after [initializeCache]; otherwise it is that of the fetch of
    [Italian], or none. *)
Theorem initCache_outcome (h : HookState number) (s : State number) :
  exists h' : HookState number,
    let s' := snd (initCache h s) in
    fst (initCache h s) = Ok h'
    /\ loading h' = false
    /\ usingMockData s' = true
    /\ recipes h' = getAllRecipes s'
    /\ (error h' = None \/ error h' = Some (fetchFailure "Italian")
        \/ (error h' = error h /\ getAllRecipes s' <> []))
    /\ (error h <> Some initFailure -> error h' <> Some initFailure).
Proof.
  unfold initCache, try_catch, bind, gets, ret. cbv zeta.
  rewrite initializeCache_run. cbv zeta.
  set (s0 := set_calls _ _).
  assert (exists s1, (match getAllMockRecipes (calls s) with
                      | Ok entries => (Ok true, snd (forEach initializeEntry entries s0))
                      | Throw _ => (Ok false, s0)
                      end = (Ok (match getAllMockRecipes (calls s) with
                                 | Ok _ => true | Throw _ => false end), s1))
                     /\ usingMockData s1 = true) as (s1 & -> & Hm).
  { destruct (getAllMockRecipes (calls s)) as [entries|e].
    - eexists. split; [reflexivity|].
      by destruct (forEach_initializeEntry entries s0) as (_ & _ & _ & ->).
    - by eexists. }
  clearbody s0. clear s0.
  destruct (0 <? List.length (getAllRecipes s1))%nat eqn:Hall.
  - eexists. cbn [fst snd]. split; [reflexivity|].
    cbn [loading error recipes setLoading setRecipes].
    split; [done|]. split; [done|]. split; [done|]. split; [|done].
    right; right. split; [done|]. intros E. by rewrite E in Hall.
  - assert (getAllRecipes s1 = []) as Hnil by (by destruct (getAllRecipes s1)).
    rewrite fetchRecipesForCuisine_run. cbv zeta.
    rewrite (hasCuisine_getAllRecipes "Italian" s1 Hnil).
    rewrite getRecipes_run, (hasCuisine_getAllRecipes "Italian" s1 Hnil).
    cbn [truthy andb]. cbv zeta.
    destruct (getMockRecipesForCuisine (calls s1) "Italian") as [fetched|e].
    + eexists. cbn [fst snd]. split; [reflexivity|].
      cbn [loading error recipes setLoading setRecipes setError].
      split; [done|]. split.
      { destruct fetched; cbn [List.length Nat.ltb Nat.leb]; [done|].
        by rewrite addRecipes_run. }
      split; [|split; [by left|done]].
      destruct fetched as [|r l]; cbn [List.length Nat.ltb Nat.leb]; [done|].
      rewrite addRecipes_run. unfold getAllRecipes in *.
      cbn [snd inMemoryCache set_localStorage set_clockReads set_inMemoryCache set_calls].
      symmetry. by apply concat_values_set.
    + eexists. cbn [fst snd]. split; [reflexivity|].
      cbn [loading error recipes setLoading setRecipes setError].
      split; [done|]. split; [done|]. split; [done|]. split; [right; by left|].
      intros _. unfold fetchFailure, initFailure. by intros [=].
Qed.

End HookFacts.

(** ** Persistence of a cache of any size *)

Section KeyOrder.
Context {V : Type}.
#[local] Open Scope list_scope.
Implicit Types (o p : list (string * V)) (k : string) (v : V) (ks : list string).

Lemma key_order_cons k ks :
  key_order (k :: ks) = true <->
  (k ∉ ks) /\ (forall k', k' ∈ ks -> key_before k k' = true) /\ key_order ks = true.
Proof.
  cbn [key_order]. rewrite !andb_true_iff, negb_true_iff, array_includes_false.
  rewrite forallb_forall. setoid_rewrite <- list_elem_of_In. tauto.
Qed.

Lemma key_order_app ks1 ks2 :
  key_order (ks1 ++ ks2) = true <->
  key_order ks1 = true /\ key_order ks2 = true
  /\ forall k1 k2, k1 ∈ ks1 -> k2 ∈ ks2 -> k1 <> k2 /\ key_before k1 k2 = true.
Proof.
  induction ks1 as [|k ks1 IH]; cbn [app].
  - split; [intros H; split; [done|split; [done|]]|tauto].
    intros k1 k2 Hk1. by apply elem_of_nil in Hk1.
  - rewrite !key_order_cons, IH. setoid_rewrite elem_of_app.
    setoid_rewrite elem_of_cons. split.
    + intros (H1 & H2 & H3 & H4 & H5). split; [split; [tauto|split; [|done]]|].
      { intros k' Hk'. apply H2. by left. }
      split; [done|]. intros k1 k2 [->|Hk1] Hk2.
      * split; [|apply H2; by right]. intros ->. apply H1. by right.
      * by apply H5.
    + intros ((H1 & H2 & H3) & H4 & H5). split; [|split; [|split; [done|split; [done|]]]].
      * intros [?|Hk]; [done|]. by destruct (H5 k k ltac:(by left) Hk).
      * intros k' [?|?]; [by apply H2|]. apply H5; [by left|done].
      * intros k1 k2 ? ?. apply H5; [by right|done].
Qed.

Lemma obj_get_None_keys k o : obj_get k o = None <-> k ∉ obj_keys o.
Proof.
  rewrite <- obj_get_keys. split.
  - intros -> [? [=]].
  - intros H. destruct (obj_get k o); [|done]. destruct H. by eexists.
Qed.





(** Assignment keeps the keys distinct and in the order of enumeration. *)
Lemma obj_keys_replace k v o :
  is_Some (obj_get k o) -> obj_keys (obj_replace k v o) = obj_keys o.
Proof.
  unfold obj_keys, obj_get. induction o as [|[k' v'] o IH]; cbn [table_get obj_replace].
  - by intros [? ?].
  - destruct (String.eqb_spec k k') as [->|_]; cbn [map fst]; [done|].
    intros H. by rewrite IH.
Qed.

Lemma obj_keys_insert_index (n : N) k v o :
  exists o1 o2, o = (o1 ++ o2)%list /\ obj_insert_index n k v o = (o1 ++ (k, v) :: o2)%list
    /\ (forall k', k' ∈ obj_keys o1 ->
          exists n', array_index k' = Some n' /\ (n' <= n)%N)
    /\ match o2 with
       | [] => True
       | (k', _) :: _ =>
           match array_index k' with Some n' => (n < n')%N | None => True end
       end.
Proof.
  induction o as [|[k' v'] o IH]; cbn [obj_insert_index].
  - exists [], []. split; [done|]. split; [done|]. split; [|done].
    intros k' H. by apply elem_of_nil in H.
  - destruct (array_index k') as [n'|] eqn:E.
    + destruct (N.ltb_spec n n') as [Hlt|Hge].
      * exists [], ((k', v') :: o). split; [done|]. split; [done|]. split.
        -- intros k'' H. by apply elem_of_nil in H.
        -- by rewrite E.
      * destruct IH as (o1 & o2 & -> & -> & H1 & H2).
        exists ((k', v') :: o1), o2. split; [done|]. split; [done|]. split; [|done].
        intros k'' [->|H]%elem_of_cons; [by exists n'|by apply H1].
    + exists [], ((k', v') :: o). split; [done|]. split; [done|]. split.
      * intros k'' H. by apply elem_of_nil in H.
      * by rewrite E.
Qed.

Lemma key_before_trans_index k1 k2 k3 :
  key_before k1 k2 = true -> key_before k2 k3 = true -> key_before k1 k3 = true.
Proof.
  unfold key_before.
  destruct (array_index k1), (array_index k2), (array_index k3); try done.
  rewrite !N.leb_le. lia.
Qed.

Lemma key_order_obj_set k v o :
  key_order (obj_keys o) = true -> key_order (obj_keys (obj_set k v o)) = true.
Proof.
  intros Ho. unfold obj_set. destruct (obj_get k o) eqn:E.
  - rewrite obj_keys_replace; [done|by rewrite E].
  - apply obj_get_None_keys in E.
    destruct (array_index k) as [n|] eqn:Ek.
    + destruct (obj_keys_insert_index n k v o) as (o1 & o2 & -> & -> & H1 & H2).
      unfold obj_keys in *. rewrite map_app in *. cbn [map fst].
      apply key_order_app in Ho as (Ho1 & Ho2 & H12).
      rewrite elem_of_app in E.
      assert (forall k2, k2 ∈ map fst o2 -> key_before k k2 = true) as Hk2.
      { intros k2 Hk2. destruct o2 as [|[k' v'] o2]; [by apply elem_of_nil in Hk2|].
        cbn [map fst] in *. apply key_order_cons in Ho2 as (_ & Hb & _).
        assert (key_before k k' = true) as Hkk'.
        { unfold key_before. rewrite Ek. destruct (array_index k'); [|done].
          apply N.leb_le. lia. }
        apply elem_of_cons in Hk2 as [->|Hk2]; [done|].
        eapply key_before_trans_index; [exact Hkk'|by apply Hb]. }
      apply key_order_app. split; [done|]. split.
      * apply key_order_cons. split; [tauto|]. by split.
      * intros k1 k2 Hk1 [->|Hk2']%elem_of_cons.
        -- split; [intros ->; tauto|]. destruct (H1 k1 Hk1) as (n1 & E1 & Hn1).
           unfold key_before. rewrite E1, Ek. by apply N.leb_le.
        -- by apply H12.
    + unfold obj_keys in *. rewrite map_app. cbn [map fst].
      apply key_order_app. split; [done|]. split; [done|].
      intros k1 k2 Hk1 ->%list_elem_of_singleton. split; [by intros ->|].
      unfold key_before. rewrite Ek. by destruct (array_index k1).
Qed.

End KeyOrder.

Section RoundTrip.
Context {number : Type} {platform : Platform number}.
Implicit Types (s : State number) (o : list (string * list (Recipe number)))
  (ls : gmap string string).








(** The cache object of a state reached by [addRecipes] has its keys in
    the order of enumeration when the state before has. *)
Lemma addRecipes_key_order (c : string) (R : list (Recipe number)) s :
  key_order (obj_keys (inMemoryCache s)) = true ->
  key_order (obj_keys (inMemoryCache (snd (addRecipes c R s)))) = true.
Proof.
  intros H. rewrite addRecipes_run.
  cbn [snd inMemoryCache set_localStorage set_clockReads set_inMemoryCache].
  by apply key_order_obj_set.
Qed.


End RoundTrip.

(** ** What [initializeCache] puts into the cache *)

Section PopulateFacts.
Context {number : Type} {platform : Platform number}.
Implicit Types (s : State number) (o : list (string * list (Recipe number)))
  (es : list (string * MockValue number)).




End PopulateFacts.

(** ** Search, and the way from a region to the recipes shown *)

Section SearchFacts.
Context {number : Type}.
Implicit Types (r : Recipe number) (rs : list (Recipe number)).

(** X21. With a search text that is not empty, in a view other than the
    favourites, the active region has no effect on the list [Home] derives;
    two search texts with the same lower-case form give the same list; and
    the filter does not throw, a recipe being kept exactly when the text in
    lower case occurs in the lower-case title, country, region or
    description, or in a lower-case ingredient.  In the favourites view the
    list is that of the favourites, whatever the search text and the
    region. *)
Theorem search_takes_precedence (view : View) (q : string)
    (activeRegion : option (Region number)) (rs : list (Recipe number)) :
  view <> favorites ->
  truthy q = true ->
  filteredRecipes view q activeRegion rs = filteredRecipes view q None rs
  /\ (forall q' : string,
        toLowerCase q' = toLowerCase q ->
        filteredRecipes view q' activeRegion rs = filteredRecipes view q activeRegion rs)
  /\ (exists kept : list (Recipe number),
        filteredRecipes view q activeRegion rs = Ok kept
        /\ forall r : Recipe number,
             r ∈ kept <->
             r ∈ rs
             /\ (includes (toLowerCase (title r)) (toLowerCase q) = true
                 \/ includes (toLowerCase (country r)) (toLowerCase q) = true
                 \/ includes (toLowerCase (region r)) (toLowerCase q) = true
                 \/ includes (toLowerCase (description r)) (toLowerCase q) = true
                 \/ exists l ingredient,
                      ingredients r = Some l /\ ingredient ∈ l
                      /\ includes (toLowerCase ingredient) (toLowerCase q) = true))
  /\ (forall q' : string,
        filteredRecipes favorites q' activeRegion rs = Ok (favoriteRecipes rs)).
Proof.
  intros Hv Hq. unfold filteredRecipes.
  set (g := fun r : Recipe number =>
              (includes (toLowerCase (title r)) (toLowerCase q)
               || includes (toLowerCase (country r)) (toLowerCase q)
               || includes (toLowerCase (region r)) (toLowerCase q)
               || includes (toLowerCase (description r)) (toLowerCase q)
               || match ingredients r with
                  | Some l => existsb (fun ingredient =>
                                         includes (toLowerCase ingredient) (toLowerCase q)) l
                  | None => false
                  end)%bool).
  assert (forall q' a, toLowerCase q' = toLowerCase q ->
            filter_throwing (filterCallback view q' a) rs = Ok (List.filter g rs)) as Hall.
  { intros q' a E. apply filter_throwing_Ok. intros r _.
    assert (truthy q' = true) as Hq'
      by (by rewrite <- toLowerCase_truthy, E, toLowerCase_truthy).
    unfold filterCallback. rewrite Hq', E. by destruct view. }
  split; [|split; [|split]].
  - by rewrite !Hall.
  - intros q' E. by rewrite !Hall.
  - exists (List.filter g rs). split; [by apply Hall|].
    intros r. rewrite elem_of_List_filter. unfold g. rewrite !orb_true_iff.
    assert (match ingredients r with
            | Some l => existsb (fun ingredient =>
                                   includes (toLowerCase ingredient) (toLowerCase q)) l
            | None => false
            end = true <->
            exists l ingredient,
              ingredients r = Some l /\ ingredient ∈ l
              /\ includes (toLowerCase ingredient) (toLowerCase q) = true) as ->.
    { destruct (ingredients r) as [l|].
      - rewrite existsb_exists. split.
        + intros (x & Hx%list_elem_of_In & H). by exists l, x.
        + intros (l' & x & [= <-] & Hx%list_elem_of_In & H). by exists x.
      - split; [done|]. by intros (? & ? & ? & _). }
    tauto.
  - intros q'. by apply filter_throwing_Ok.
Qed.

End SearchFacts.

Section RegionToRecipes.
Context {number : Type} {platform : Platform number}.
Implicit Types (s : State number) (h : HookState number).

Lemma effectCuisine_truthy (name0 c : string) :
  effectCuisine name0 = Some c -> truthy c = true.
Proof.
  unfold effectCuisine, member, effect_countryToCuisine, regionToCuisine.
  cbn [table_get].
  repeat match goal with
         | |- context [String.eqb name0 ?x] =>
             destruct (String.eqb_spec name0 x) as [->|?]; [cbn; by intros [= <-]|]
         end.
  destruct (array_includes Object_prototype_names name0); [done|].
  by intros [= <-].
Qed.

Lemma fetchRecipesForCuisine_shown (cuisine : string) h s :
  truthy cuisine = true ->
  exists h',
    fst (fetchRecipesForCuisine cuisine h s) = Ok h'
    /\ loading h' = false
    /\ selectedCuisine h' = selectedCuisine h
    /\ (error h' = None ->
        recipes h' = getRecipesForCuisine cuisine (snd (fetchRecipesForCuisine cuisine h s)))
    /\ (error h' <> None -> error h' = Some (fetchFailure cuisine) /\ recipes h' = []).
Proof.
  intros Ht. rewrite fetchRecipesForCuisine_run. cbv zeta.
  destruct (hasCuisine cuisine s) eqn:Hc.
  - eexists. cbn [fst snd]. split; [reflexivity|]. by cbn.
  - rewrite getRecipes_run, Ht, Hc. cbn [andb]. cbv zeta.
    destruct (getMockRecipesForCuisine (calls s) cuisine) as [fetched|e].
    + eexists. cbn [fst snd]. split; [reflexivity|].
      cbn [loading selectedCuisine error recipes setLoading setRecipes setError].
      split; [done|]. split; [done|]. split; [|done].
      intros _. destruct fetched as [|r l]; cbn [List.length Nat.ltb Nat.leb].
      * symmetry. by apply hasCuisine_false_get.
      * by rewrite getRecipesForCuisine_addRecipes.
    + eexists. cbn [fst snd]. split; [reflexivity|]. by cbn.
Qed.

(** X22. From a region to the recipes shown: when the effect of [Home]
    maps the name of the active region to a cuisine, and the hook's effect
    runs on the cuisine so selected, the hook fetches that cuisine: it does
    not throw, the cuisine is the selected one, [loading] ends false, and
    the list shown is what the cache then holds for the cuisine, or, with
    the error of the cuisine set, the empty list. *)
Theorem region_selection_fetches (name0 cuisine : string) (h : HookState number)
    (s : State number) :
  effectCuisine name0 = Some cuisine ->
  let run := selectedCuisineEffect (updateCuisine cuisine h) s in
  run = fetchRecipesForCuisine cuisine (updateCuisine cuisine h) s
  /\ exists h' : HookState number,
       fst run = Ok h'
       /\ selectedCuisine h' = Some cuisine
       /\ loading h' = false
       /\ (error h' = None -> recipes h' = getRecipesForCuisine cuisine (snd run))
       /\ (error h' <> None -> error h' = Some (fetchFailure cuisine) /\ recipes h' = []).
Proof.
  intros Hc%effectCuisine_truthy run. subst run.
  unfold selectedCuisineEffect. cbn [updateCuisine setSelectedCuisine selectedCuisine
    truthy_opt the_string]. rewrite Hc. cbn [negb].
  split; [done|].
  destruct (fetchRecipesForCuisine_shown cuisine (updateCuisine cuisine h) s Hc)
    as (h' & H1 & H2 & H3 & H4 & H5).
  exists h'. exact (conj H1 (conj H3 (conj H2 (conj H4 H5)))).
Qed.

End RegionToRecipes.

(** ** The further properties on the examples *)

(** X4 on the filters [vegetarian], [vegan]. *)
Lemma toggleDietaryFilter_NoDup_example :
  NoDup (toggleDietaryFilter "gluten-free" ["vegetarian"; "vegan"])
  /\ ("gluten-free" ∉ ["vegetarian"; "vegan"] ->
      toggleDietaryFilter "gluten-free"
        (toggleDietaryFilter "gluten-free" ["vegetarian"; "vegan"])
      = ["vegetarian"; "vegan"]).
Proof.
  exact (toggleDietaryFilter_NoDup "gluten-free" ["vegetarian"; "vegan"]
           ltac:(by apply (bool_decide_unpack _))).
Defined.

(** X8 on the example: [carbonara], no favourite, is toggled. *)
Lemma favoriteRecipes_after_toggle_example :
  with_isFavorite carbonara true
    ∈ favoriteRecipes (toggleFavorite "mock-101" [carbonara; tiramisu; tacos]).
Proof.
  destruct (favoriteRecipes_after_toggle "mock-101" [carbonara; tiramisu; tacos] carbonara
              ltac:(left)) as [H _].
  exact (proj2 (H eq_refl) eq_refl).
Defined.

(** X9 on the example: [tiramisu] is selected and toggled. *)
Lemma homeToggleFavorite_selected_example :
  exists r' : Recipe Z,
    snd (homeToggleFavorite "mock-102" ([carbonara; tiramisu], Some tiramisu)) = Some r'
    /\ r' ∈ fst (homeToggleFavorite "mock-102" ([carbonara; tiramisu], Some tiramisu))
    /\ id r' = id tiramisu
    /\ isFavorite r' = (if String.eqb (id tiramisu) "mock-102"
                        then negb (isFavorite tiramisu) else isFavorite tiramisu)
    /\ homeToggleFavorite "mock-102"
         (homeToggleFavorite "mock-102" ([carbonara; tiramisu], Some tiramisu))
       = ([carbonara; tiramisu], Some tiramisu).
Proof.
  exact (homeToggleFavorite_selected "mock-102" [carbonara; tiramisu] tiramisu
           ltac:(right; left)).
Defined.

(** X15 on the example: the recipe made of [irishStew]. *)
Lemma transformSpoonacularRecipe_shape_example :
  isFavorite irishStewRecipe = false
  /\ startsWith (id irishStewRecipe) "mock-" = false
  /\ (region irishStewRecipe ∈ continents \/ region irishStewRecipe = "Global")
  /\ tagFree (description irishStewRecipe) = true.
Proof.
  destruct (transformSpoonacularRecipe_shape (numbers := integerNumbers) (0, 0)
              irishStew irishStewRecipe eq_refl) as (H1 & _ & H3 & H4 & H5 & _).
  exact (conj H1 (conj H3 (conj H4 H5))).
Defined.

(** X16 on the example: [Irish] has coordinates and no region, and the
    recipe is kept under no continent label. *)
Lemma transformed_outside_continents_example :
  region irishStewRecipe = "Global"
  /\ forall label : string,
       label ∈ continents -> inActiveRegion label irishStewRecipe = Ok false.
Proof.
  exact (transformed_outside_continents (numbers := integerNumbers) (0, 0)
           irishStew irishStewRecipe eq_refl eq_refl).
Defined.

(** X17 on the example: [Italian] is fetched on a new profile. *)
Lemma fetchRecipesForCuisine_outcome_example :
  exists h' : HookState Z,
    fst (fetchRecipesForCuisine (platform := examplePlatform) "Italian"
           (initialHook None) emptyState) = Ok h'
    /\ loading h' = false
    /\ error h' = None
    /\ recipes h' = [carbonara; tiramisu].
Proof.
  destruct (fetchRecipesForCuisine_outcome (platform := examplePlatform) "Italian"
              (initialHook None) emptyState eq_refl
              ltac:(by apply array_includes_false))
    as (h' & H1 & H2 & _ & _ & H5 & _).
  destruct (H5 eq_refl) as [_ [H6 H7]].
  exists h'. exact (conj H1 (conj H2 (conj H6 H7))).
Defined.



(** X21 on the example: the search for [pork] under the scope of Asia. *)
Lemma search_takes_precedence_example :
  filteredRecipes explore "Pork"
    (Some {| region_id := "asia"; name := "Asia";
             region_description := "Explore cuisines from Asia";
             region_coordinates := (0, 0) |})
    [carbonara; tiramisu; tacos; bibimbap]
  = filteredRecipes explore "Pork" None [carbonara; tiramisu; tacos; bibimbap].
Proof.
  exact (proj1 (search_takes_precedence explore "Pork"
                  (Some {| region_id := "asia"; name := "Asia";
                           region_description := "Explore cuisines from Asia";
                           region_coordinates := (0, 0) |})
                  [carbonara; tiramisu; tacos; bibimbap]
                  ltac:(done) eq_refl)).
Defined.

(** X22 on the example: the region [Italy] on a new profile. *)
Lemma region_selection_fetches_example :
  exists h' : HookState Z,
    fst (selectedCuisineEffect (platform := examplePlatform)
           (updateCuisine "Italian" (initialHook None)) emptyState) = Ok h'
    /\ selectedCuisine h' = Some "Italian"
    /\ loading h' = false.
Proof.
  destruct (region_selection_fetches (platform := examplePlatform) "Italy" "Italian"
              (initialHook None) emptyState eq_refl) as (_ & h' & H1 & H2 & H3 & _).
  exists h'. exact (conj H1 (conj H2 H3)).
Defined.
